(** * coffea / processor / work_queue_tools.py

    A shallow embedding of the adaptive scheduling and accumulation
    controller of [work_queue_tools.py]: the [Stats] counters, the dynamic
    chunk-size estimator, the task life cycle (clone, split, resubmit) and
    the accumulation scheduler.

    Conventions of the embedding.
    - Python [int] is [Z]. A finite [float] is the rational [Q] it
      denotes. Where the source divides two [int], or an [int] by a
      [float], the quotient is rounded to the nearest double
      ([round_to_double]) and overflow raises. The arithmetic inside
      [_compute_chunksize_target] (numpy) is taken as exact. NaN is
      modelled where the source meets it: the results of
      [scipy.stats.linregress], a resource target, and the candidate
      sizes computed from it. Infinities are outside the model.
    - [math.log2] is computed by the C library: the expression
      [math.floor(math.log2(value))] is a parameter of [_floor_to_pow2].
      [numpy.quantile] and [scipy.stats.linregress] are parameters of the
      estimator. Each has a reference model, used on concrete inputs.
    - A [dict] with string keys is a [gmap string _]. [len(x)] is the
      value of [x.__len__()].
    - A function that may raise returns an [outcome]; a method that mutates
      the queue threads the queue state and returns it even when it raises,
      so that what was mutated before the exception stays visible.
    - An attribute that no statement of [__init__] assigns is an [option]
      in the queue state: reading it while it is unset raises
      [AttributeError]. *)

From Stdlib Require Import ZArith QArith Qabs Qround Lia Lqa List Sorted Permutation.
From stdpp Require Import base strings gmap list pretty.

Local Open Scope Z_scope.

(** ** Python exceptions and outcomes *)

Inductive exn : Type :=
| RuntimeError (msg : string)
| KeyError (key : string)
| ValueError (msg : string)
| TypeError (msg : string)
| AttributeError (msg : string)
| OverflowError (msg : string)
| ZeroDivisionError
| NotImplementedError.

(** [Diverged] is the outcome of a loop whose fuel ran out; it never
    stands for a Python value. *)
Inductive outcome (A : Type) : Type :=
| Ok (a : A)
| Raise (e : exn)
| Diverged.

Arguments Ok {A} a.
Arguments Raise {A} e.
Arguments Diverged {A}.

(** ** class Stats(dict) *)

Abbreviation Stats := (gmap string Z).

Module StatsOps.

(** [dict.setdefault(key, default)]: the stored value when [key] is
    present; otherwise [default], which is also stored under [key]. *)
Definition setdefault (self : Stats) (key : string) (default : Z) : Z * Stats :=
  match self !! key with
  | Some v => (v, self)
  | None => (default, <[key := default]> self)
  end.

(** [try: self[stat] += delta / except KeyError: self[stat] = delta] *)
Definition inc (self : Stats) (stat : string) (delta : Z) : Stats :=
  match self !! stat with
  | Some v => <[stat := v + delta]> self
  | None => <[stat := delta]> self
  end.

Definition set (self : Stats) (stat : string) (value : Z) : Stats :=
  <[stat := value]> self.

(** [def get(self, stat, default=None): return self.setdefault(stat, 0)]
    The parameter [default] is accepted and not used. *)
Definition get (self : Stats) (stat : string) (default : option Z) : Z * Stats :=
  setdefault self stat 0.

Definition min (self : Stats) (stat : string) (value : Z) : Stats :=
  match self !! stat with
  | Some v => <[stat := Z.min v value]> self
  | None => <[stat := value]> self
  end.

Definition max (self : Stats) (stat : string) (value : Z) : Stats :=
  match self !! stat with
  | Some v => <[stat := Z.max v value]> self
  | None => <[stat := value]> self
  end.

End StatsOps.

(** ** Doubles *)

Definition Qlt_bool (a b : Q) : bool := negb (Qle_bool b a).

(** Rounding to the nearest integer, halves to the even one. *)
Definition round_half_even (x : Q) : Z :=
  let f := Qfloor x in
  let r := (x - inject_Z f)%Q in
  if Qlt_bool r (1 # 2) then f
  else if Qlt_bool (1 # 2) r then f + 1
  else if Z.even f then f else f + 1.

(** [2 ** k] as a rational, for every integer [k]. *)
Definition Qpow2 (k : Z) : Q :=
  if k <? 0 then (/ inject_Z (2 ^ (- k)))%Q else inject_Z (2 ^ k).

(** The floor of the binary logarithm of a rational [a > 0], exactly. *)
Definition exact_floor_log2 (a : Q) : Z :=
  if Qle_bool 1 a then Z.log2 (Qfloor a)
  else - Z.log2_up (Qceiling (/ a)).

(** The double nearest to [x], ties to the even significand: 53 bits from
    the leading one, and never finer than the subnormal step
    [2 ** -1074]. The result is a double when it is below [2 ** 1024]. *)
Definition round_to_double (x : Q) : Q :=
  if Qeq_bool x 0 then 0%Q
  else
    let a := Qabs x in
    let step := Qpow2 (Z.max (exact_floor_log2 a - 52) (-1074)) in
    let r := (inject_Z (round_half_even (a / step)) * step)%Q in
    if Qlt_bool x 0 then (- r)%Q else r.

Definition double_overflows (r : Q) : bool := Qle_bool (Qpow2 1024) (Qabs r).

(** [a / b] on two [int]: the quotient, correctly rounded. *)
Definition int_truediv (a b : Z) : outcome Q :=
  if b =? 0 then Raise ZeroDivisionError
  else
    let r := round_to_double (inject_Z a / inject_Z b) in
    if double_overflows r
    then Raise (OverflowError "integer division result too large for a float")
    else Ok r.

(** [a / y] on an [int] and a [float]: the [int] is converted first. *)
Definition int_float_truediv (a : Z) (y : Q) : outcome Q :=
  let x := round_to_double (inject_Z a) in
  if double_overflows x then Raise (OverflowError "int too large to convert to float")
  else if Qeq_bool y 0 then Raise ZeroDivisionError
  else Ok (round_to_double (x / y)).

(** [int(x)] on a float: truncation towards zero. *)
Definition py_int (x : Q) : Z := Z.quot (Qnum x) (Z.pos (Qden x)).

(** ** Functions related to dynamic chunksize *)

(** Python's two-argument [max] returns its first argument unless the
    second is strictly larger. *)
Definition py_max (a b : Q) : Q := if Qlt_bool a b then b else a.

(** [TaskReport = namedtuple("TaskReport", ["events_count", "wall_time", "memory"])] *)
Record TaskReport : Type := mkTaskReport {
  events_count : Z;
  wall_time : Q;
  memory : Q
}.

(** A double that may be NaN. *)
Inductive pyfloat : Type :=
| fnan
| fval (q : Q).

(** The outcome of [scipy.stats.linregress(x, y)]: it raised, or it
    returned a slope and an intercept (the other three fields of the
    result are not used). *)
Inductive linregress_result : Type :=
| LinregressRaised
| LinregressResult (slope intercept : pyfloat).

(** Truthiness of a target or of a candidate, which may be [None]: a
    number is true unless it is zero, and NaN is true. *)
Definition truthy (c : option pyfloat) : bool :=
  match c with
  | Some (fval q) => negb (Qeq_bool q 0)
  | Some fnan => true
  | None => false
  end.

(** [x < y] on doubles: false as soon as one of them is NaN. *)
Definition float_lt (x y : pyfloat) : bool :=
  match x, y with
  | fval a, fval b => Qlt_bool a b
  | _, _ => false
  end.

(** Python's two-argument [min] returns its first argument unless the
    second is strictly smaller. *)
Definition py_min (a b : pyfloat) : pyfloat := if float_lt b a then b else a.

(** [min(lst)] over a non-empty list given as head and tail. *)
Definition py_min_list (x : pyfloat) (xs : list pyfloat) : pyfloat := fold_left py_min xs x.

(** [pow(2, k)] for an [int] [k]: an [int] for [k >= 0], and the double
    [2.0 ** k] otherwise, which is [0.0] below the subnormals. *)
Definition py_pow2 (k : Z) : Q := if k <? -1074 then 0%Q else Qpow2 k.

Section Estimator.

(** [numpy.quantile(a, q, interpolation="nearest")] at one level [q]. *)
Variable quantile : list Q -> Q -> Q.
Variable linregress : list Q -> list Q -> linregress_result.

(** [avgs = [e / max(1, target) for (target, e) in pairs]] *)
Definition rates (pairs : list (Q * Q)) : list Q :=
  map (fun p => (snd p / py_max 1 (fst p))%Q) pairs.

(** The pairs whose rate is at least the 25% quantile, in order. *)
Definition pairs_filtered (pairs : list (Q * Q)) : list (Q * Q) :=
  let avgs := rates pairs in
  let q25 := quantile avgs (1 # 4) in
  map fst (List.filter (fun pa => Qle_bool q25 (snd pa)) (combine pairs avgs)).

(** The test that sends [_compute_chunksize_target] to the median rate:
    [slope is None or isnan(slope) or isnan(intercept) or slope < 0 or
    intercept > 0]. *)
Definition fit_rejected (fit : linregress_result) : bool :=
  match fit with
  | LinregressRaised => true
  | LinregressResult fnan _ => true
  | LinregressResult (fval _) fnan => true
  | LinregressResult (fval slope) (fval intercept) =>
      Qlt_bool slope 0 || Qlt_bool 0 intercept
  end.

(** [def _compute_chunksize_target(target, pairs)] for a target that is
    a number; [None] is Python's [None]. *)
Definition _compute_chunksize_target (target : Q) (pairs : list (Q * Q)) : option Q :=
  match pairs with
  | [] => None
  | p0 :: _ =>
      if Qlt_bool (fst p0) 0 then None
      else
        let avgs := rates pairs in
        let q50 := quantile avgs (1 # 2) in
        let filtered := pairs_filtered pairs in
        let fit := linregress (map fst filtered) (map snd filtered) in
        let '(slope, intercept) :=
          if fit_rejected fit then (q50, 0%Q)
          else
            match fit with
            | LinregressResult (fval s) (fval i) => (s, i)
            | _ => (q50, 0%Q)
            end in
        Some (slope * target + intercept)%Q
  end.

(** [_compute_chunksize_target] for a target that may be NaN. The target
    enters the last statement only, [org = (slope * target) + intercept],
    and this is NaN when the target is: the function then returns [None]
    or NaN where it returns [None] or a number for a number. *)
Definition _compute_chunksize_target_or_nan (target : pyfloat) (pairs : list (Q * Q))
  : option pyfloat :=
  match target with
  | fval t => option_map fval (_compute_chunksize_target t pairs)
  | fnan => option_map (fun _ => fnan) (_compute_chunksize_target 0 pairs)
  end.

(** The target under [key] when it is requested: the mapping is given
    and holds under [key] a value that is neither [None] nor zero. *)
Definition requested_target (resource_targets : option (gmap string (option pyfloat)))
    (key : string) : option pyfloat :=
  match resource_targets with
  | Some targets =>
      match targets !! key with
      | Some (Some t) => if truthy (Some t) then Some t else None
      | _ => None
      end
  | None => None
  end.

(** The candidate of one resource, whose reading in a report is
    [reading]: computed from two reports on, for a requested target. *)
Definition target_candidate (resource_targets : option (gmap string (option pyfloat)))
    (task_reports : list TaskReport) (key : string) (reading : TaskReport -> Q)
  : option pyfloat :=
  if 1 <? Z.of_nat (length task_reports) then
    match requested_target resource_targets key with
    | Some t =>
        _compute_chunksize_target_or_nan t
          (map (fun r => (reading r, inject_Z (events_count r))) task_reports)
    | None => None
    end
  else None.

(** [math.floor(math.log2(value))] for a number [value >= 1]: the
    logarithm is the C library's, computed in doubles. *)
Variable floor_log2 : Q -> Z.

(** [def _floor_to_pow2(value)]. On NaN the comparison [value < 1] is
    false, [math.log2] returns NaN and [math.floor] raises. *)
Definition _floor_to_pow2 (value : pyfloat) : outcome Q :=
  match value with
  | fval v => if Qlt_bool v 1 then Ok 1%Q else Ok (py_pow2 (floor_log2 v))
  | fnan => Raise (ValueError "cannot convert float NaN to integer")
  end.

(** [candidate_sizes = [c for c in [chunksize_time, chunksize_memory] if c]] *)
Definition candidate_sizes (chunksize_time chunksize_memory : option pyfloat)
  : list pyfloat :=
  omap (fun c => if truthy c then c else None) [chunksize_time; chunksize_memory].

(** The part of [_compute_chunksize] under
    [if resource_targets is not None and len(task_reports) > 1]: the two
    optional candidates. The wall-time target is read with
    [resource_targets.get("wall_time", None)], the memory target with
    [resource_targets["memory"]], which raises [KeyError] on a missing
    key. *)
Definition chunksize_candidates (resource_targets : option (gmap string (option pyfloat)))
    (task_reports : list TaskReport) : outcome (option pyfloat * option pyfloat) :=
  match resource_targets with
  | Some targets =>
      if (1 <? Z.of_nat (length task_reports)) then
        let target_time := mjoin (targets !! "wall_time") in
        let chunksize_time :=
          match target_time with
          | Some t =>
              if truthy target_time then
                _compute_chunksize_target_or_nan t
                  (map (fun r => (wall_time r, inject_Z (events_count r))) task_reports)
              else None
          | None => None
          end in
        match targets !! "memory" with
        | None => Raise (KeyError "memory")
        | Some target_memory =>
            let chunksize_memory :=
              match target_memory with
              | Some m =>
                  if truthy target_memory then
                    _compute_chunksize_target_or_nan m
                      (map (fun r => (memory r, inject_Z (events_count r))) task_reports)
                  else None
              | None => None
              end in
            Ok (chunksize_time, chunksize_memory)
        end
      else Ok (None, None)
  | None => Ok (None, None)
  end.

(** [def _compute_chunksize(base_chunksize, resource_targets, task_reports)] *)
Definition _compute_chunksize (base_chunksize : Z)
    (resource_targets : option (gmap string (option pyfloat)))
    (task_reports : list TaskReport) : outcome Z :=
  match chunksize_candidates resource_targets task_reports with
  | Ok (chunksize_time, chunksize_memory) =>
      let chunksize :=
        match candidate_sizes chunksize_time chunksize_memory with
        | c :: cs => py_min_list c cs
        | [] => fval (inject_Z base_chunksize)
        end in
      match _floor_to_pow2 chunksize with
      | Ok rounded => Ok (py_int rounded)
      | Raise (ValueError _) => Ok base_chunksize
      | Raise e => Raise e
      | Diverged => Diverged
      end
  | Raise e => Raise e
  | Diverged => Diverged
  end.

End Estimator.

(** [def _sample_chunksize(chunksize)]. [random.choices] with the weights
    90 and 10 picks the first or the second element of the list; which
    one it picks is an input here. Both elements are computed before the
    draw. *)
Definition _sample_chunksize (picks_first : bool) (chunksize : Z) : outcome Z :=
  match int_truediv chunksize 2 with
  | Ok half => Ok (py_int (if picks_first then inject_Z chunksize else py_max half 1))
  | Raise e => Raise e
  | Diverged => Diverged
  end.

(** ** Sorting by a key

    [sort_by key l] is [l.sort(key=key)]: the stable sort of [l] by
    ascending key, as an insertion sort; that it orders the list and
    keeps its elements is proved below ([sort_by_sorted],
    [sort_by_Permutation]). *)

Fixpoint insert_by {A : Type} (key : A -> Q) (x : A) (l : list A) : list A :=
  match l with
  | [] => [x]
  | y :: l' => if Qle_bool (key x) (key y) then x :: y :: l' else y :: insert_by key x l'
  end.

Definition sort_by {A : Type} (key : A -> Q) (l : list A) : list A :=
  fold_right (insert_by key) [] l.

(** ** Reference models of the library calls

    They instantiate the parameters of the estimator where it is run on
    concrete inputs. *)

(** Nearest-rank quantile: the element of the sorted data at index
    [round((n - 1) * q)], halves rounded to the even index
    ([numpy.around]). *)
Definition quantile_nearest (data : list Q) (q : Q) : Q :=
  let sorted := sort_by (fun x => x) data in
  let n := Z.of_nat (length data) in
  nth (Z.to_nat (round_half_even (inject_Z (n - 1) * q))) sorted 0%Q.

Definition Qsum (l : list Q) : Q := fold_right Qplus 0%Q l.

(** Least squares: NaN for both results when the regression is undefined
    (fewer than two points, or all [x] identical). *)
Definition linregress_least_squares (xs ys : list Q) : linregress_result :=
  let n := inject_Z (Z.of_nat (length xs)) in
  let xbar := (Qsum xs / n)%Q in
  let ybar := (Qsum ys / n)%Q in
  let ssxx := Qsum (map (fun x => (x - xbar) * (x - xbar))%Q xs) in
  let ssxy := Qsum (map (fun xy => (fst xy - xbar) * (snd xy - ybar))%Q (combine xs ys)) in
  if (Z.of_nat (length xs) <? 2) || Qeq_bool ssxx 0 then LinregressResult fnan fnan
  else
    let slope := (ssxy / ssxx)%Q in
    LinregressResult (fval slope) (fval (ybar - slope * xbar)%Q).

(** [n] squarings of a number between 0 and 1 that lies between
    [lo / 2 ** 256] and [hi / 2 ** 256]: bounds of the same kind for the
    result. *)
Fixpoint square_times (n : nat) (lo hi : Z) : Z * Z :=
  match n with
  | O => (lo, hi)
  | S n' => square_times n' (lo * lo / 2 ^ 256) ((hi * hi + (2 ^ 256 - 1)) / 2 ^ 256)
  end.

(** [math.floor(math.log2(x))] for [x >= 1] with a logarithm that is
    rounded to the nearest double. With [k] the exact floor, the
    logarithm rounds to [k + 1] when it is within half a unit in the last
    place of it, that is when [log2 x >= k + 1 - 2 ** (e - 53)] for the
    exponent [e] of the doubles just below [k + 1], or, with
    [y = x / 2 ** (k + 1)], when [y ** (2 ** (53 - e)) >= 1 / 2]. The
    power is bounded from below with 256 fractional bits. *)
Definition floor_log2_double (x : Q) : Z :=
  let k := exact_floor_log2 x in
  let e := if k <=? 0 then -1 else Z.log2 k in
  let y := (x / Qpow2 (k + 1))%Q in
  let scaled := (y * inject_Z (2 ^ 256))%Q in
  let '(lo, _) := square_times (Z.to_nat (53 - e)) (Qfloor scaled) (Qceiling scaled) in
  if 2 ^ 255 <=? lo then k + 1 else k.

(** ** Work items and tasks *)

(** [WorkItem] is imported from [.executor]; the fields are those that
    [split] passes to its constructor, in that order. *)
Record WorkItem : Type := mkWorkItem {
  dataset : string;
  filename : string;
  treename : string;
  entrystart : Z;
  entrystop : Z;
  fileuuid : string;
  usermeta : string
}.

(** Modelled from the spec: [WorkItem.__len__] lives in [executor.py]; a
    work item covers the sub-range [[start, stop)], and its length is the
    number of events of that range. *)
Definition WorkItem_len (item : WorkItem) : Z := entrystop item - entrystart item.

(** The item of a preprocessing task (a file description). *)
Record FileMeta : Type := mkFileMeta {
  fm_dataset : string;
  fm_filename : string;
  fm_treename : string
}.

(** The result codes of a task reported by Work Queue, as far as the code
    tells them apart. *)
Inductive wq_result : Type :=
| WORK_QUEUE_RESULT_SUCCESS
| WORK_QUEUE_RESULT_INPUT_MISSING
| WORK_QUEUE_RESULT_OUTPUT_MISSING
| WORK_QUEUE_RESULT_STDOUT_MISSING
| WORK_QUEUE_RESULT_SIGNAL
| WORK_QUEUE_RESULT_RESOURCE_EXHAUSTION
| WORK_QUEUE_RESULT_TASK_TIMEOUT
| WORK_QUEUE_RESULT_UNKNOWN
| WORK_QUEUE_RESULT_FORSAKEN
| WORK_QUEUE_RESULT_MAX_RETRIES.

Definition wq_result_eqb (a b : wq_result) : bool :=
  match a, b with
  | WORK_QUEUE_RESULT_SUCCESS, WORK_QUEUE_RESULT_SUCCESS
  | WORK_QUEUE_RESULT_INPUT_MISSING, WORK_QUEUE_RESULT_INPUT_MISSING
  | WORK_QUEUE_RESULT_OUTPUT_MISSING, WORK_QUEUE_RESULT_OUTPUT_MISSING
  | WORK_QUEUE_RESULT_STDOUT_MISSING, WORK_QUEUE_RESULT_STDOUT_MISSING
  | WORK_QUEUE_RESULT_SIGNAL, WORK_QUEUE_RESULT_SIGNAL
  | WORK_QUEUE_RESULT_RESOURCE_EXHAUSTION, WORK_QUEUE_RESULT_RESOURCE_EXHAUSTION
  | WORK_QUEUE_RESULT_TASK_TIMEOUT, WORK_QUEUE_RESULT_TASK_TIMEOUT
  | WORK_QUEUE_RESULT_UNKNOWN, WORK_QUEUE_RESULT_UNKNOWN
  | WORK_QUEUE_RESULT_FORSAKEN, WORK_QUEUE_RESULT_FORSAKEN
  | WORK_QUEUE_RESULT_MAX_RETRIES, WORK_QUEUE_RESULT_MAX_RETRIES => true
  | _, _ => false
  end.

(** The attributes of a task that the methods below read. [result] is
    written by Work Queue when the task comes back, [fout_size] by
    [CoffeaWQ.wait] on success. *)
Record TaskAttrs : Type := mkTaskAttrs {
  itemid : string;
  size : Z;
  retries_to_go : Z;
  infile_procc_fn : string;
  result : wq_result;
  fin_size : Q;
  fout_size : Q
}.

(** The three task classes. An accumulation task holds the list of the
    tasks it merges. *)
#[warnings="-register-all"]
Inductive CoffeaWQTask : Type :=
| PreProcCoffeaWQTask (attrs : TaskAttrs) (item : FileMeta)
| ProcCoffeaWQTask (attrs : TaskAttrs) (item : WorkItem)
| AccumCoffeaWQTask (attrs : TaskAttrs) (tasks_to_accumulate : list CoffeaWQTask).

Definition attrs_of (t : CoffeaWQTask) : TaskAttrs :=
  match t with
  | PreProcCoffeaWQTask a _ => a
  | ProcCoffeaWQTask a _ => a
  | AccumCoffeaWQTask a _ => a
  end.

Definition with_attrs (t : CoffeaWQTask) (a : TaskAttrs) : CoffeaWQTask :=
  match t with
  | PreProcCoffeaWQTask _ item => PreProcCoffeaWQTask a item
  | ProcCoffeaWQTask _ item => ProcCoffeaWQTask a item
  | AccumCoffeaWQTask _ ts => AccumCoffeaWQTask a ts
  end.

(** [len(task)] is [task.size]. *)
Definition task_len (t : CoffeaWQTask) : Z := size (attrs_of t).

Definition set_retries_to_go (t : CoffeaWQTask) (r : Z) : CoffeaWQTask :=
  let a := attrs_of t in
  with_attrs t (mkTaskAttrs (itemid a) (size a) r (infile_procc_fn a)
                            (result a) (fin_size a) (fout_size a)).


(** ** The executor and the queue *)

(** The options of the executor that the controller reads. *)
Record Executor : Type := mkExecutor {
  retries : Z;
  split_on_exhaustion : bool;
  chunks_per_accum : Z;
  chunksize : Z;
  dynamic_chunksize : option (gmap string (option pyfloat))
}.

(** The state that the methods of [CoffeaWQ] read and write.
    - [executor], [stats_coffea], [tasks_to_accumulate] and [task_reports]
      are the attributes that [CoffeaWQ.__init__] assigns;
      [verbose_mode] is that of [self.console], which [__init__] builds
      from [executor.verbose or executor.print_stdout].
    - [coffea_stats] and [current_chunksize] are attributes that
      [__init__] does not assign: [None] stands for an attribute that is
      not set. No statement of the file assigns [self.coffea_stats];
      [self.current_chunksize] is assigned by [_update_chunksize].
    - [submitted] holds the tasks handed to [WorkQueue.submit], in order.
    - [tasks_counter] and [early_terminate] are the two globals
      [CoffeaWQTask.tasks_counter] and [early_terminate]. *)
Record CoffeaWQ : Type := mkCoffeaWQ {
  executor : Executor;
  verbose_mode : bool;
  stats_coffea : Stats;
  coffea_stats : option Stats;
  tasks_to_accumulate : list CoffeaWQTask;
  task_reports : list TaskReport;
  current_chunksize : option Z;
  submitted : list CoffeaWQTask;
  tasks_counter : Z;
  early_terminate : bool
}.

Definition set_stats_coffea (q : CoffeaWQ) (s : Stats) : CoffeaWQ :=
  mkCoffeaWQ (executor q) (verbose_mode q) s (coffea_stats q) (tasks_to_accumulate q)
             (task_reports q) (current_chunksize q) (submitted q) (tasks_counter q)
             (early_terminate q).

Definition set_coffea_stats (q : CoffeaWQ) (s : option Stats) : CoffeaWQ :=
  mkCoffeaWQ (executor q) (verbose_mode q) (stats_coffea q) s (tasks_to_accumulate q)
             (task_reports q) (current_chunksize q) (submitted q) (tasks_counter q)
             (early_terminate q).

Definition set_tasks_to_accumulate (q : CoffeaWQ) (ts : list CoffeaWQTask) : CoffeaWQ :=
  mkCoffeaWQ (executor q) (verbose_mode q) (stats_coffea q) (coffea_stats q) ts
             (task_reports q) (current_chunksize q) (submitted q) (tasks_counter q)
             (early_terminate q).

Definition set_task_reports (q : CoffeaWQ) (reports : list TaskReport) : CoffeaWQ :=
  mkCoffeaWQ (executor q) (verbose_mode q) (stats_coffea q) (coffea_stats q)
             (tasks_to_accumulate q) reports (current_chunksize q) (submitted q)
             (tasks_counter q) (early_terminate q).

Definition set_current_chunksize (q : CoffeaWQ) (c : option Z) : CoffeaWQ :=
  mkCoffeaWQ (executor q) (verbose_mode q) (stats_coffea q) (coffea_stats q)
             (tasks_to_accumulate q) (task_reports q) c (submitted q) (tasks_counter q)
             (early_terminate q).

Definition set_submitted (q : CoffeaWQ) (ts : list CoffeaWQTask) : CoffeaWQ :=
  mkCoffeaWQ (executor q) (verbose_mode q) (stats_coffea q) (coffea_stats q)
             (tasks_to_accumulate q) (task_reports q) (current_chunksize q) ts
             (tasks_counter q) (early_terminate q).

Definition set_tasks_counter (q : CoffeaWQ) (n : Z) : CoffeaWQ :=
  mkCoffeaWQ (executor q) (verbose_mode q) (stats_coffea q) (coffea_stats q)
             (tasks_to_accumulate q) (task_reports q) (current_chunksize q) (submitted q)
             n (early_terminate q).

(** ** The monad of the methods: queue state and exceptions *)

Definition M (A : Type) : Type := CoffeaWQ -> outcome A * CoffeaWQ.

Definition ret {A : Type} (a : A) : M A := fun q => (Ok a, q).

Definition bind {A B : Type} (m : M A) (f : A -> M B) : M B :=
  fun q =>
    match m q with
    | (Ok a, q') => f a q'
    | (Raise e, q') => (Raise e, q')
    | (Diverged, q') => (Diverged, q')
    end.

Definition raise {A : Type} (e : exn) : M A := fun q => (Raise e, q).
Definition diverge {A : Type} : M A := fun q => (Diverged, q).
Definition gets {A : Type} (f : CoffeaWQ -> A) : M A := fun q => (Ok (f q), q).
Definition modify (f : CoffeaWQ -> CoffeaWQ) : M unit := fun q => (Ok tt, f q).

(** The outcome of a function that does not touch the queue. *)
Definition lift {A : Type} (o : outcome A) : M A := fun q => (o, q).

Declare Scope wq_scope.
Delimit Scope wq_scope with wq.
Notation "x <- m ;; k" := (bind m (fun x => k))
  (at level 100, m at next level, right associativity) : wq_scope.
Notation "m ;;; k" := (bind m (fun _ => k))
  (at level 100, right associativity) : wq_scope.
Local Open Scope wq_scope.

(** [for x in xs: body(x)] *)
Fixpoint for_each {A : Type} (xs : list A) (body : A -> M unit) : M unit :=
  match xs with
  | [] => ret tt
  | x :: xs' => body x ;;; for_each xs' body
  end.

Definition no_attribute (name : string) : exn :=
  AttributeError ("'CoffeaWQ' object has no attribute '" +:+ name +:+ "'").

(** [self.<name>] for an attribute that may be unset. *)
Definition getattr {A : Type} (name : string) (field : CoffeaWQ -> option A) : M A :=
  fun q =>
    match field q with
    | Some v => (Ok v, q)
    | None => (Raise (no_attribute name), q)
    end.

(** [CoffeaWQ.submit(task)]: the task goes to Work Queue
    ([super().submit(task)]); then the console is called with the format
    ["submitted ... with {size} {unit}"] and the keyword [units], and a
    console in verbose mode formats it. *)
Definition submit (task : CoffeaWQTask) : M unit :=
  modify (fun q => set_submitted q (submitted q ++ [task])) ;;;
  verbose <- gets verbose_mode ;;
  if verbose then raise (KeyError "unit") else ret tt.

(** [math.ceil(a / b)] on two [int]. *)
Definition ceil_div (a b : Z) : outcome Z :=
  match int_truediv a b with
  | Ok x => Ok (Qceiling x)
  | Raise e => Raise e
  | Diverged => Diverged
  end.

(** ** Task construction *)

(** [join(queue.staging_dir, name)]: [CoffeaWQ.staging_dir] is defined as
    a method, without [@property], so [queue.staging_dir] is a bound
    method and [os.path.join] rejects it. *)
Definition join_staging_dir (name : string) : M string :=
  raise (TypeError "expected str, bytes or os.PathLike object, not method").

(** [CoffeaWQTask.__init__]: counts the task, then builds the names of its
    three files in the staging directory, then takes the retry budget of
    the executor. A new task has no result yet. *)
Definition CoffeaWQTask_init (fn : string) (id : string) (sz : Z) (fin : Q) : M TaskAttrs :=
  modify (fun q => set_tasks_counter q (tasks_counter q + 1)) ;;;
  infile_args <- join_staging_dir ("args_" +:+ id +:+ ".p") ;;
  outfile_output <- join_staging_dir ("out_" +:+ id +:+ ".p") ;;
  outfile_stdout <- join_staging_dir ("stdout_" +:+ id +:+ ".p") ;;
  r <- gets (fun q => retries (executor q)) ;;
  ret (mkTaskAttrs id sz r fn WORK_QUEUE_RESULT_UNKNOWN fin 0%Q).

(** [if not itemid: itemid = "<prefix>_{}".format(CoffeaWQTask.tasks_counter)];
    the counter is read before [CoffeaWQTask.__init__] increments it. *)
Definition itemid_or_fresh (prefix : string) (id : option string) : M string :=
  let fresh := n <- gets tasks_counter ;; ret (prefix +:+ "_" +:+ pretty n) in
  match id with
  | Some s => if String.eqb s "" then fresh else ret s
  | None => fresh
  end.

Definition new_PreProcCoffeaWQTask (fn : string) (item : FileMeta) (id : option string)
  : M CoffeaWQTask :=
  id' <- itemid_or_fresh "pre" id ;;
  a <- CoffeaWQTask_init fn id' 1 0%Q ;;
  ret (PreProcCoffeaWQTask a item).

Definition new_ProcCoffeaWQTask (fn : string) (item : WorkItem) (id : option string)
  : M CoffeaWQTask :=
  let sz := WorkItem_len item in
  id' <- itemid_or_fresh "p" id ;;
  a <- CoffeaWQTask_init fn id' sz 0%Q ;;
  ret (ProcCoffeaWQTask a item).

Definition new_AccumCoffeaWQTask (fn : string) (ts : list CoffeaWQTask) (id : option string)
  : M CoffeaWQTask :=
  id' <- itemid_or_fresh "accum" id ;;
  let sz := fold_right Z.add 0 (map task_len ts) in
  let fin := Qsum (map (fun t => fout_size (attrs_of t)) ts) in
  a <- CoffeaWQTask_init fn id' sz fin ;;
  ret (AccumCoffeaWQTask a ts).

(** ** clone, split, resubmit *)

(** [clone]: each class builds a new task of its class on the same
    payload and under the same item id. *)
Definition clone (self : CoffeaWQTask) : M CoffeaWQTask :=
  match self with
  | PreProcCoffeaWQTask a item =>
      new_PreProcCoffeaWQTask (infile_procc_fn a) item (Some (itemid a))
  | ProcCoffeaWQTask a item =>
      new_ProcCoffeaWQTask (infile_procc_fn a) item (Some (itemid a))
  | AccumCoffeaWQTask a ts =>
      new_AccumCoffeaWQTask (infile_procc_fn a) ts (Some (itemid a))
  end.

(** The [while start < self.item.entrystop] loop of
    [ProcCoffeaWQTask.split]. *)
Fixpoint split_loop (fuel : nat) (fn : string) (item : WorkItem)
    (actual_chunksize : Z) (start : Z) : M (list CoffeaWQTask) :=
  if start <? entrystop item then
    match fuel with
    | O => diverge
    | S fuel' =>
        let stop := Z.min (entrystop item) (start + actual_chunksize) in
        let w := mkWorkItem (dataset item) (filename item) (treename item)
                            start stop (fileuuid item) (usermeta item) in
        t <- new_ProcCoffeaWQTask fn w None ;;
        splits <- split_loop fuel' fn item actual_chunksize stop ;;
        ret (t :: splits)
    end
  else ret [].

(** [ProcCoffeaWQTask.split]. The loop gets as much fuel as the item has
    events. *)
Definition ProcCoffeaWQTask_split (a : TaskAttrs) (item : WorkItem) : M (list CoffeaWQTask) :=
  let total := WorkItem_len item in
  if total <? 2 then
    raise (RuntimeError "processing task cannot be split any further.")
  else
    target_chunksize <- getattr "current_chunksize" current_chunksize ;;
    target_chunksize <-
      (if total <=? target_chunksize then lift (ceil_div total 2)
       else ret target_chunksize) ;;
    n <- lift (ceil_div total target_chunksize) ;;
    let n := Z.max n 1 in
    actual_chunksize <- lift (ceil_div total n) ;;
    modify (fun q => set_stats_coffea q (StatsOps.inc (stats_coffea q) "chunks_split" 1)) ;;;
    modify (fun q => set_stats_coffea q
              (StatsOps.min (stats_coffea q) "min_chunksize_after_split" actual_chunksize)) ;;;
    split_loop (Z.to_nat total) (infile_procc_fn a) item actual_chunksize (entrystart item).

(** [split]: only processing tasks override the method of the base
    class, which raises. *)
Definition split (self : CoffeaWQTask) : M (list CoffeaWQTask) :=
  match self with
  | ProcCoffeaWQTask a item => ProcCoffeaWQTask_split a item
  | _ => raise (RuntimeError "task cannot be split any further.")
  end.

Definition failed_permanently (id : string) : exn :=
  RuntimeError ("item " +:+ id +:+ " failed permanently. No more retries left.").

(** [CoffeaWQTask.resubmit]; the result is the list of resubmitted
    tasks, which the source submits and does not return. The calls of
    the console in it are formatted with positional arguments only and
    leave the queue as it is. *)
Definition resubmit (self : CoffeaWQTask) : M (list CoffeaWQTask) :=
  let a := attrs_of self in
  split_allowed <- gets (fun q => split_on_exhaustion (executor q)) ;;
  if (retries_to_go a <? 1) || negb split_allowed then
    raise (failed_permanently (itemid a))
  else
    resubmissions <-
      (if wq_result_eqb (result a) WORK_QUEUE_RESULT_RESOURCE_EXHAUSTION then
         split self
       else
         t <- clone self ;;
         ret [set_retries_to_go t (retries_to_go a - 1)]) ;;
    for_each resubmissions submit ;;;
    ret resubmissions.

(** ** The accumulation scheduler *)

(** [lst[i : i + n]] for [0 <= i] and [0 <= n]. *)
Definition slice {A : Type} (lst : list A) (i n : nat) : list A :=
  firstn n (skipn i lst).

(** [range(0, stop, step)] for [step > 0], as the list of its values. *)
Definition range_step (stop step : nat) : list nat :=
  map (fun j => (j * step)%nat) (seq 0 (Nat.div (stop + step - 1) step)).

(** [(lst[i : i + n] for i in range(0, len(lst), n))] for [n > 0]. The
    generator is consumed by one loop that does not change the list
    object, so it is taken as the list of its values. *)
Definition group_slices {A : Type} (lst : list A) (n : nat) : list (list A) :=
  map (fun i => slice lst i n) (range_step (length lst) n).

(** [def _group_lst(lst, n)]: [range] raises on a zero step and is empty
    on a negative one. *)
Definition _group_lst {A : Type} (lst : list A) (n : Z) : outcome (list (list A)) :=
  if n =? 0 then Raise (ValueError "range() arg 3 must not be zero")
  else if n <? 0 then Ok []
  else Ok (group_slices lst (Z.to_nat n)).

(** The three statements of [_submit_accum_tasks] that compute [force],
    on the counters [stats] and the global [early_terminate]; the
    counters come back with what [Stats.get] inserted. *)
Definition force_flag (stats : Stats) (early_terminate : bool) : bool * Stats :=
  let '(processed, stats) := StatsOps.get stats "events_processed" None in
  let '(total, stats) := StatsOps.get stats "events_total" None in
  let force := (total <=? processed) || early_terminate in
  let force := early_terminate in
  let '(processed, stats) := StatsOps.get stats "events_processed" None in
  let '(total, stats) := StatsOps.get stats "events_total" None in
  let force := force || (total <=? processed) in
  (force, stats).

(** A method of the object that [self.coffea_stats] holds: the attribute
    is read, and the object is changed in place. *)
Definition on_coffea_stats {A : Type} (f : Stats -> A * Stats) : M A :=
  stats <- getattr "coffea_stats" coffea_stats ;;
  let '(a, stats') := f stats in
  modify (fun q => set_coffea_stats q (Some stats')) ;;;
  ret a.

(** [len(next_to_accum) < 2 or (len(next_to_accum) < chunks_per_accum and
    not force)]: the group is not accumulated. *)
Definition not_enough (chunks : Z) (force : bool) (next_to_accum : list CoffeaWQTask) : bool :=
  let len := Z.of_nat (length next_to_accum) in
  (len <? 2) || ((len <? chunks) && negb force).

(** The loop over the groups. After a task is submitted its children are
    written to the lineage log (a file, not modelled) and the total of
    the progress bar is set to
    [ceil(1 + events_total * acc_sub / events_done)]; the bar is not
    modelled, the division by zero is. *)
Fixpoint accum_loop (fn : string) (chunks : Z) (force : bool)
    (groups : list (list CoffeaWQTask)) : M unit :=
  match groups with
  | [] => ret tt
  | next_to_accum :: rest =>
      if not_enough chunks force next_to_accum then
        modify (fun q => set_tasks_to_accumulate q next_to_accum)
      else
        accum_task <- new_AccumCoffeaWQTask fn next_to_accum None ;;
        submit accum_task ;;;
        total <- on_coffea_stats (fun s => StatsOps.get s "events_total" None) ;;
        done <- on_coffea_stats (fun s => StatsOps.get s "events_done" None) ;;
        if done =? 0 then raise ZeroDivisionError
        else accum_loop fn chunks force rest
  end.

(** [CoffeaWQ._submit_accum_tasks] *)
Definition _submit_accum_tasks (infile_accum_fn : string) : M unit :=
  chunks <- gets (fun q => chunks_per_accum (executor q)) ;;
  stats <- getattr "coffea_stats" coffea_stats ;;
  cancel <- gets early_terminate ;;
  force <- on_coffea_stats (fun s => force_flag s cancel) ;;
  pending <- gets tasks_to_accumulate ;;
  if (Z.of_nat (length pending) <? 2 * chunks - 1) && negb force then ret tt
  else
    let sorted := sort_by (fun t => fout_size (attrs_of t)) pending in
    modify (fun q => set_tasks_to_accumulate q sorted) ;;;
    match _group_lst sorted chunks with
    | Ok groups => accum_loop infile_accum_fn chunks force groups
    | Raise e => raise e
    | Diverged => diverge
    end.

(** The spec's reading of the flag: all events are processed, or a
    cancellation was requested. *)
Definition force_flush_spec (processed total : Z) (cancellation_requested : bool) : bool :=
  (total <=? processed) || cancellation_requested.

(** ** The chunk size of the queue *)

(** Truthiness of a dict that may be [None]. *)
Definition dict_truthy {V : Type} (d : option (gmap string V)) : bool :=
  match d with
  | Some m => negb (bool_decide (m = ∅))
  | None => false
  end.

(** [CoffeaWQ._add_task_report(task)]: [cmd_execution_time] (an [int],
    in microseconds) and [resources_measured.memory] are what Work Queue
    measured for the task. *)
Definition _add_task_report (task : CoffeaWQTask) (cmd_execution_time : Z)
    (memory_measured : Q) : M unit :=
  seconds <- lift (int_float_truediv cmd_execution_time (1000000 # 1)) ;;
  modify (fun q =>
    set_task_reports q
      (task_reports q ++ [mkTaskReport (task_len task) seconds memory_measured])).

Section Controller.

Variable quantile : list Q -> Q -> Q.
Variable linregress : list Q -> list Q -> linregress_result.
Variable floor_log2 : Q -> Z.

(** [CoffeaWQ._update_chunksize] *)
Definition _update_chunksize : M Z :=
  ex <- gets executor ;;
  (if dict_truthy (dynamic_chunksize ex) then
     reports <- gets task_reports ;;
     c <- lift (_compute_chunksize quantile linregress floor_log2 (chunksize ex)
                                   (dynamic_chunksize ex) reports) ;;
     modify (fun q => set_current_chunksize q (Some c)) ;;;
     modify (fun q => set_stats_coffea q
               (StatsOps.set (stats_coffea q) "current_chunksize" c))
   else ret tt) ;;;
  getattr "current_chunksize" current_chunksize.

End Controller.

(** What [_declare_resources] decides on monitoring, from
    [executor.resource_monitor] ([None] is Python's [None]) and
    [executor.resources_mode]: [None] when [enable_monitoring] is not
    called, and the [watchdog] argument when it is. *)
Definition monitoring (resource_monitor : option string) (resources_mode : string)
  : option bool :=
  let falsy := match resource_monitor with
               | Some s => String.eqb s ""
               | None => true
               end in
  let is_ (v : string) := match resource_monitor with
                          | Some s => String.eqb s v
                          | None => false
                          end in
  let monitor_enabled := true in
  let watchdog_enabled := true in
  let '(monitor_enabled, watchdog_enabled) :=
    if falsy || is_ "off" then (false, watchdog_enabled)
    else if is_ "measure" then (monitor_enabled, false)
    else (monitor_enabled, watchdog_enabled) in
  let monitor_enabled :=
    if negb (String.eqb resources_mode "fixed") then true else monitor_enabled in
  if monitor_enabled then Some watchdog_enabled else None.

Definition unknown_resource (k : string) : exn :=
  KeyError ("dynamic chunksize resource " +:+ k +:+ " is unknown.").

(** The loop of [_check_dynamic_chunksize_targets] over the keys of the
    mapping, in the order of the dict. *)
Fixpoint check_target_keys (keys : list string) : outcome unit :=
  match keys with
  | [] => Ok tt
  | k :: keys' =>
      if String.eqb k "wall_time" || String.eqb k "memory" then check_target_keys keys'
      else Raise (unknown_resource k)
  end.

(** [def _check_dynamic_chunksize_targets(targets)]: the mapping is given
    by the list of its keys, [None] being Python's [None]. *)
Definition _check_dynamic_chunksize_targets (targets : option (list string)) : outcome unit :=
  match targets with
  | Some keys => check_target_keys keys
  | None => Ok tt
  end.

(** ** accumulate_result_files *)

(** What [accumulate_result_files] ends with: the accumulator it returns,
    or the [NameError] of a name that is not bound. *)
Inductive accumulated (R : Type) : Type :=
| Returned (accumulator : option R)
| NameError (name : string).

Arguments Returned {R} accumulator.
Arguments NameError {R} name.

Section AccumulateResultFiles.

(** The results are of a type [R]; [read f] is the result stored in the
    file [f], and [nonempty] the truth value of a result. *)
Variable R : Type.
Variable read : string -> R.
Variable nonempty : R -> bool.

Definition accumulator_truthy (accumulator : option R) : bool :=
  match accumulator with
  | Some a => nonempty a
  | None => false
  end.

(** The [while files_to_accumulate] loop, on the files in the order in
    which [pop()] takes them. With an accumulator that is true, the
    arguments of [accumulate([result_f], accumulator)] are evaluated, and
    [result_f] is bound nowhere. *)
Fixpoint accumulate_popped (popped : list string) (accumulator : option R) : accumulated R :=
  match popped with
  | [] => Returned accumulator
  | f :: popped' =>
      let result := read f in
      if negb (accumulator_truthy accumulator) then accumulate_popped popped' (Some result)
      else NameError "result_f"
  end.

(** [def accumulate_result_files(files_to_accumulate, accumulator=None)] *)
Definition accumulate_result_files (files_to_accumulate : list string)
    (accumulator : option R) : accumulated R :=
  accumulate_popped (rev files_to_accumulate) accumulator.

End AccumulateResultFiles.

(** ** Statements about the estimator *)

(** The fit is one that [_compute_chunksize_target] does not use: the
    regression raised, the slope or the intercept is NaN, the slope is
    negative, or the intercept is positive. *)
Definition fit_implausible (fit : linregress_result) : Prop :=
  match fit with
  | LinregressRaised => True
  | LinregressResult slope intercept =>
      slope = fnan \/ intercept = fnan \/
      (exists s, slope = fval s /\ (s < 0)%Q) \/
      (exists i, intercept = fval i /\ (0 < i)%Q)
  end.

(** [x <= y] on two numbers; it does not hold of NaN. *)
Definition float_le (x y : pyfloat) : Prop :=
  match x, y with
  | fval a, fval b => (a <= b)%Q
  | _, _ => False
  end.

(** What [int(_floor_to_pow2(value))] is for a number [value], with the
    library's [floor_log2]. *)
Definition rounded_chunksize (floor_log2 : Q -> Z) (value : Q) : Z :=
  py_int (if Qlt_bool value 1 then 1%Q else py_pow2 (floor_log2 value)).

(** Two task reports of 100 and 200 events. *)
Definition two_reports : list TaskReport :=
  [mkTaskReport 100 (10 # 1) (50 # 1); mkTaskReport 200 (20 # 1) (60 # 1)].

(** [{"wall_time": 60}]: a wall-time target and no entry for memory. *)
Definition wall_time_only : gmap string (option pyfloat) :=
  {[ "wall_time" := Some (fval (60 # 1)) ]}.

(** [{"wall_time": 60, "memory": 2048}] *)
Definition both_targets : gmap string (option pyfloat) :=
  {[ "wall_time" := Some (fval (60 # 1)); "memory" := Some (fval (2048 # 1)) ]}.

(** [{"wall_time": 5, "memory": None}], and two reports (1 event in 6 s,
    2 events in 7 s) on which the fit is [events = time - 5]: the
    candidate for 5 s is zero. *)
Definition five_seconds : gmap string (option pyfloat) :=
  {[ "wall_time" := Some (fval (5 # 1)); "memory" := None ]}.

Definition slow_start_reports : list TaskReport :=
  [mkTaskReport 1 (6 # 1) (0 # 1); mkTaskReport 2 (7 # 1) (0 # 1)].

(** [{"wall_time": float("nan"), "memory": None}] *)
Definition nan_wall_time : gmap string (option pyfloat) :=
  {[ "wall_time" := Some fnan; "memory" := None ]}.

(** The double just below 1024, which Python prints as
    [1023.9999999999999], and [{"wall_time": 1023.9999999999999,
    "memory": None}]; two reports of 1 event in 1 s, on which the rate
    is 1 event per second and the candidate is the target. *)
Definition just_below_1024 : Q := (2 ^ 53 - 1) # (2 ^ 43).

Definition wall_time_just_below_1024 : gmap string (option pyfloat) :=
  {[ "wall_time" := Some (fval just_below_1024); "memory" := None ]}.

Definition one_event_per_second : list TaskReport :=
  [mkTaskReport 1 (1 # 1) (0 # 1); mkTaskReport 1 (1 # 1) (0 # 1)].

(** Two pairs (observed resource, event count) with the same reading. *)
Definition same_reading_pairs : list (Q * Q) :=
  [(10 # 1, 100 # 1); (10 # 1, 200 # 1)]%Q.

Definition unit_reading_pairs : list (Q * Q) :=
  [(1 # 1, 10 # 1); (1 # 1, 10 # 1)]%Q.

(** ** Statements about the task life cycle *)

(** The queue after one more task was counted. *)
Definition counted (q : CoffeaWQ) : CoffeaWQ := set_tasks_counter q (tasks_counter q + 1).

(** The exception of [join(queue.staging_dir, ...)]. *)
Definition staging_dir_is_a_method : exn :=
  TypeError "expected str, bytes or os.PathLike object, not method".


(** An executor with three retries and without dynamic chunk sizes, and a
    queue that holds what [CoffeaWQ.__init__] assigns: empty counters and
    lists, and neither [coffea_stats] nor [current_chunksize]. *)
Definition example_executor (split_allowed : bool) : Executor :=
  mkExecutor 3 split_allowed 2 4 None.

Definition example_queue (split_allowed : bool) : CoffeaWQ :=
  mkCoffeaWQ (example_executor split_allowed) false ∅ None [] [] None [] 0 false.

Definition example_item : WorkItem :=
  mkWorkItem "dataset" "events.root" "Events" 0 8 "uuid" "".

(** A processing task on [example_item] with three retries left. *)
Definition example_task : CoffeaWQTask :=
  ProcCoffeaWQTask
    (mkTaskAttrs "p_0" 8 3 "proc.p" WORK_QUEUE_RESULT_UNKNOWN 0%Q 0%Q) example_item.

(** An executor with the targets [{"wall_time": 60, "memory": 2048}] and
    a base chunk size of 100000, and its queue after [_update_chunksize]
    set the chunk size to 4. *)
Definition dynamic_executor : Executor :=
  mkExecutor 3 true 2 100000 (Some both_targets).

Definition chunksize_4_queue : CoffeaWQ :=
  mkCoffeaWQ dynamic_executor false {[ "current_chunksize" := 4 ]} None [] two_reports
             (Some 4) [] 0 false.

(** The same executor on a queue with two reports and no chunk size
    yet. *)
Definition dynamic_queue : CoffeaWQ :=
  mkCoffeaWQ dynamic_executor false ∅ None [] two_reports None [] 0 false.

(** ** Statements about the accumulation scheduler *)

(** A processing task that came back successfully, with an output of
    [fout] MB. *)
Definition done_task (id : string) (start stop : Z) (fout : Q) : CoffeaWQTask :=
  ProcCoffeaWQTask
    (mkTaskAttrs id (stop - start) 3 "proc.p" WORK_QUEUE_RESULT_SUCCESS 0%Q fout)
    (mkWorkItem "dataset" "events.root" "Events" start stop "uuid" "").

Definition task_A : CoffeaWQTask := done_task "p_0" 0 5 (1 # 1).
Definition task_B : CoffeaWQTask := done_task "p_1" 5 10 (2 # 1).
Definition task_C : CoffeaWQTask := done_task "p_2" 10 15 (3 # 1).
Definition task_D : CoffeaWQTask := done_task "p_3" 15 20 (4 # 1).

(** Counters on which 20 of 100 events are processed. *)
Definition counters_with_done : Stats :=
  {[ "events_processed" := 20; "events_total" := 100; "events_done" := 20 ]}.

Definition counters_without_done : Stats :=
  {[ "events_processed" := 20; "events_total" := 100 ]}.

(** A queue with [chunks_per_accum = 2] on which four results wait for
    accumulation. [stats_coffea] holds the counters; [coffea_stats] is
    not set, as no statement of the class sets it. *)
Definition four_pending : CoffeaWQ :=
  mkCoffeaWQ (example_executor true) false counters_with_done None
             [task_A; task_B; task_C; task_D] [] None [] 4 false.

(** The same queue with an attribute [coffea_stats] put on it from
    outside. *)
Definition four_pending_patched : CoffeaWQ :=
  set_coffea_stats four_pending (Some counters_with_done).

(** ** Statements about the counters *)

(** [x] is the maximum (minimum) of the non-empty list [l]. *)
Definition is_max_of (x : Z) (l : list Z) : Prop :=
  In x l /\ forall y, In y l -> y <= x.

Definition is_min_of (x : Z) (l : list Z) : Prop :=
  In x l /\ forall y, In y l -> x <= y.

(** * Properties *)

(** ** Stats *)

(** C10: [s.get(k, d)] returns the stored value when [k] is present and
    leaves the mapping as it is; when [k] is absent it returns 0 whatever
    the default [d], and afterwards the mapping holds [k -> 0] and is
    unchanged at every other key. *)
Theorem Stats_get_setdefault_zero (s : Stats) (k : string) (d : option Z) :
  (forall v, s !! k = Some v -> StatsOps.get s k d = (v, s)) /\
  (s !! k = None ->
     fst (StatsOps.get s k d) = 0 /\
     snd (StatsOps.get s k d) !! k = Some 0 /\
     (forall k', k' <> k -> snd (StatsOps.get s k d) !! k' = s !! k') /\
     snd (StatsOps.get s k d) <> s).
Proof.
  unfold StatsOps.get, StatsOps.setdefault. split.
  - intros v Hv. now rewrite Hv.
  - intros Hnone. rewrite Hnone. cbn [fst snd].
    split; [reflexivity|]. split; [apply lookup_insert_eq|]. split.
    + intros k' Hne. apply lookup_insert_ne. congruence.
    + intros Heq. pose proof (lookup_insert_eq s k 0) as Hin.
      rewrite Heq in Hin. congruence.
Qed.

Lemma Stats_get_setdefault_zero_witness :
  StatsOps.get counters_without_done "events_total" (Some 7) = (100, counters_without_done) /\
  fst (StatsOps.get counters_without_done "events_done" (Some 7)) = 0 /\
  snd (StatsOps.get counters_without_done "events_done" (Some 7)) !! "events_done" = Some 0.
Proof.
  split; [|split].
  - apply (proj1 (Stats_get_setdefault_zero counters_without_done "events_total" (Some 7))).
    reflexivity.
  - apply (proj2 (Stats_get_setdefault_zero counters_without_done "events_done" (Some 7))).
    reflexivity.
  - apply (proj2 (Stats_get_setdefault_zero counters_without_done "events_done" (Some 7))).
    reflexivity.
Defined.

(** Every counter reads after [Stats.get] what it read before. *)
Lemma Stats_get_reads_same (s : Stats) (k k' : string) (d : option Z) :
  default 0 (snd (StatsOps.get s k d) !! k') = default 0 (s !! k').
Proof.
  unfold StatsOps.get, StatsOps.setdefault.
  destruct (s !! k) eqn:E; cbn [snd]; [reflexivity|].
  destruct (decide (k = k')) as [<-|Hne].
  - rewrite lookup_insert_eq, E. reflexivity.
  - rewrite lookup_insert_ne by assumption. reflexivity.
Qed.

Lemma Stats_get_pair (s : Stats) (k : string) :
  StatsOps.get s k None = (default 0 (s !! k), snd (StatsOps.get s k None)).
Proof.
  unfold StatsOps.get, StatsOps.setdefault. destruct (s !! k); reflexivity.
Qed.

(** ** Rounding to a power of two *)

Lemma Qlt_bool_iff (a b : Q) : Qlt_bool a b = true <-> (a < b)%Q.
Proof.
  unfold Qlt_bool. rewrite negb_true_iff. split.
  - intros H. apply Qnot_le_lt. intros Hle.
    apply Qle_bool_iff in Hle. congruence.
  - intros H. destruct (Qle_bool b a) eqn:E; [|reflexivity].
    apply Qle_bool_iff in E. exfalso. exact (Qlt_not_le _ _ H E).
Qed.

Lemma Qlt_bool_false_iff (a b : Q) : Qlt_bool a b = false <-> (b <= a)%Q.
Proof.
  unfold Qlt_bool. rewrite negb_false_iff. apply Qle_bool_iff.
Qed.

Lemma inject_Z_le (a b : Z) : a <= b <-> (inject_Z a <= inject_Z b)%Q.
Proof. rewrite Zle_Qle. reflexivity. Qed.

Lemma inject_Z_lt (a b : Z) : a < b <-> (inject_Z a < inject_Z b)%Q.
Proof. rewrite Zlt_Qlt. reflexivity. Qed.

(** [exact_floor_log2] is the floor of the binary logarithm on [x >= 1]. *)
Lemma exact_floor_log2_bounds (x : Q) :
  (1 <= x)%Q ->
  0 <= exact_floor_log2 x /\
  (inject_Z (2 ^ exact_floor_log2 x) <= x)%Q /\
  (x < inject_Z (2 ^ (exact_floor_log2 x + 1)))%Q.
Proof.
  intros Hx. unfold exact_floor_log2.
  apply Qle_bool_iff in Hx as Hb. rewrite Hb.
  assert (Hf : 1 <= Qfloor x).
  { rewrite <- (Qfloor_Z 1). apply Qfloor_resp_le. exact Hx. }
  destruct (Z.log2_spec (Qfloor x)) as [Hlo Hhi]; [lia|].
  split; [apply Z.log2_nonneg|]. split.
  - apply Qle_trans with (inject_Z (Qfloor x)); [|apply Qfloor_le].
    apply (proj1 (inject_Z_le _ _)). exact Hlo.
  - apply Qlt_le_trans with (inject_Z (Qfloor x + 1)); [apply Qlt_floor|].
    apply (proj1 (inject_Z_le _ _)). rewrite <- Z.add_1_r in Hhi. lia.
Qed.

Lemma py_int_inject_Z (z : Z) : py_int (inject_Z z) = z.
Proof. unfold py_int. cbn. apply Z.quot_1_r. Qed.

Lemma py_pow2_nonneg (k : Z) : 0 <= k -> py_pow2 k = inject_Z (2 ^ k).
Proof.
  intros Hk. unfold py_pow2, Qpow2.
  assert (E1 : (k <? -1074) = false) by (apply Z.ltb_ge; lia).
  assert (E2 : (k <? 0) = false) by (apply Z.ltb_ge; lia).
  now rewrite E1, E2.
Qed.

(** Where the library's logarithm floors as the exact one, [_floor_to_pow2]
    returns the largest power of two that is not above [x >= 1]; below 1
    it returns 1 whatever the library does. *)
Lemma floor_to_pow2_with_exact_log (floor_log2 : Q -> Z) (x : Q) :
  ((1 <= x)%Q -> floor_log2 x = exact_floor_log2 x ->
     exists k : Z,
       0 <= k /\ _floor_to_pow2 floor_log2 (fval x) = Ok (inject_Z (2 ^ k)) /\
       (inject_Z (2 ^ k) <= x)%Q /\ (x < inject_Z (2 ^ (k + 1)))%Q) /\
  ((x < 1)%Q -> _floor_to_pow2 floor_log2 (fval x) = Ok 1%Q).
Proof.
  unfold _floor_to_pow2. split.
  - intros Hx Hexact. apply Qlt_bool_false_iff in Hx as Hb. rewrite Hb, Hexact.
    destruct (exact_floor_log2_bounds x Hx) as (Hk & Hlo & Hhi).
    exists (exact_floor_log2 x). rewrite py_pow2_nonneg by exact Hk. auto.
  - intros Hx. apply Qlt_bool_iff in Hx. now rewrite Hx.
Qed.

(** The reference logarithm floors to the exact floor or to one more. *)
Lemma floor_log2_double_cases (x : Q) :
  floor_log2_double x = exact_floor_log2 x \/
  floor_log2_double x = exact_floor_log2 x + 1.
Proof.
  unfold floor_log2_double.
  destruct (square_times _ _ _) as [lo hi].
  destruct (2 ^ 255 <=? lo); auto.
Qed.

Lemma floor_log2_double_nonneg (x : Q) : (1 <= x)%Q -> 0 <= floor_log2_double x.
Proof.
  intros Hx. destruct (exact_floor_log2_bounds x Hx) as (Hk & _).
  destruct (floor_log2_double_cases x) as [-> | ->]; lia.
Qed.

(** C9: [_floor_to_pow2] does not always round down. With a logarithm
    that is rounded to the nearest double, [math.log2(2 ** 49 - 1)] is
    [49.0], and [_floor_to_pow2(2 ** 49 - 1)] is [2 ** 49], which is
    above its argument, while the largest power of two that is not above
    it is [2 ** 48]. In the same way the double just below 8,
    [7.999999999999999], is sent to 8. *)
Theorem floor_to_pow2_above_its_input :
  (1 <= inject_Z (2 ^ 49 - 1))%Q /\
  _floor_to_pow2 floor_log2_double (fval (inject_Z (2 ^ 49 - 1)))
    = Ok (inject_Z (2 ^ 49)) /\
  (inject_Z (2 ^ 49 - 1) < inject_Z (2 ^ 49))%Q /\
  exact_floor_log2 (inject_Z (2 ^ 49 - 1)) = 48 /\
  (1 <= (2 ^ 53 - 1) # (2 ^ 50))%Q /\
  _floor_to_pow2 floor_log2_double (fval ((2 ^ 53 - 1) # (2 ^ 50))) = Ok (inject_Z 8) /\
  ((2 ^ 53 - 1) # (2 ^ 50) < inject_Z 8)%Q /\
  exact_floor_log2 ((2 ^ 53 - 1) # (2 ^ 50)) = 2.
Proof.
  split; [vm_compute; discriminate|].
  split; [vm_compute; reflexivity|].
  split; [vm_compute; reflexivity|].
  split; [vm_compute; reflexivity|].
  split; [vm_compute; discriminate|].
  split; [vm_compute; reflexivity|].
  split; vm_compute; reflexivity.
Qed.

(** ** The force-flush flag *)

(** C8: the flag computed by the three statements at the top of
    [_submit_accum_tasks] is the disjunction
    [(events_processed >= events_total) or cancellation_requested], for
    every content of the counters and every value of the cancellation
    flag; a counter that is missing reads 0. *)
Theorem force_flag_refines_spec (stats : Stats) (cancellation_requested : bool) :
  fst (force_flag stats cancellation_requested) =
  force_flush_spec (default 0 (stats !! "events_processed"))
                   (default 0 (stats !! "events_total"))
                   cancellation_requested.
Proof.
  unfold force_flag.
  rewrite (Stats_get_pair stats "events_processed"). cbv beta iota.
  set (s1 := snd (StatsOps.get stats "events_processed" None)).
  rewrite (Stats_get_pair s1 "events_total"). cbv beta iota.
  set (s2 := snd (StatsOps.get s1 "events_total" None)).
  rewrite (Stats_get_pair s2 "events_processed"). cbv beta iota.
  set (s3 := snd (StatsOps.get s2 "events_processed" None)).
  rewrite (Stats_get_pair s3 "events_total"). cbv beta iota.
  cbn [fst]. unfold force_flush_spec. subst s3 s2 s1.
  rewrite !Stats_get_reads_same. apply orb_comm.
Qed.

(** ** The reference quantile returns an observation *)

Lemma insert_by_In {A : Type} (key : A -> Q) (x y : A) (l : list A) :
  In x (insert_by key y l) <-> x = y \/ In x l.
Proof.
  induction l as [|z l IH]; cbn.
  - intuition congruence.
  - destruct (Qle_bool (key y) (key z)); cbn; [intuition congruence|].
    rewrite IH. intuition congruence.
Qed.

Lemma sort_by_In {A : Type} (key : A -> Q) (x : A) (l : list A) :
  In x (sort_by key l) <-> In x l.
Proof.
  induction l as [|y l IH]; [reflexivity|].
  change (sort_by key (y :: l)) with (insert_by key y (sort_by key l)).
  rewrite insert_by_In, IH. cbn. intuition congruence.
Qed.

Lemma insert_by_length {A : Type} (key : A -> Q) (y : A) (l : list A) :
  length (insert_by key y l) = S (length l).
Proof.
  induction l as [|z l IH]; cbn; [reflexivity|].
  destruct (Qle_bool (key y) (key z)); cbn; [reflexivity|]. now rewrite IH.
Qed.

Lemma sort_by_length {A : Type} (key : A -> Q) (l : list A) :
  length (sort_by key l) = length l.
Proof.
  induction l as [|y l IH]; [reflexivity|].
  change (sort_by key (y :: l)) with (insert_by key y (sort_by key l)).
  now rewrite insert_by_length, IH.
Qed.

(** [sort_by] sorts: the result holds the same elements, in ascending
    order of their keys. *)
Lemma insert_by_Permutation {A : Type} (key : A -> Q) (x : A) (l : list A) :
  Permutation (insert_by key x l) (x :: l).
Proof.
  induction l as [|y l IH]; cbn; [reflexivity|].
  destruct (Qle_bool (key x) (key y)); [reflexivity|].
  rewrite IH. apply perm_swap.
Qed.

Lemma sort_by_Permutation {A : Type} (key : A -> Q) (l : list A) :
  Permutation (sort_by key l) l.
Proof.
  induction l as [|y l IH]; [reflexivity|].
  change (sort_by key (y :: l)) with (insert_by key y (sort_by key l)).
  rewrite insert_by_Permutation. now rewrite IH.
Qed.

Lemma insert_by_sorted {A : Type} (key : A -> Q) (x : A) (l : list A) :
  StronglySorted (fun a b => (key a <= key b)%Q) l ->
  StronglySorted (fun a b => (key a <= key b)%Q) (insert_by key x l).
Proof.
  induction l as [|y l IH]; intros Hs; cbn.
  - constructor; constructor.
  - inversion Hs as [|? ? Hl Hy]; subst.
    destruct (Qle_bool (key x) (key y)) eqn:E.
    + apply Qle_bool_iff in E. constructor; [exact Hs|].
      constructor; [exact E|].
      rewrite Stdlib.Lists.List.Forall_forall in Hy |- *.
      intros z Hz. eapply Qle_trans; [exact E|]. now apply Hy.
    + assert (Hxy : (key y <= key x)%Q).
      { apply Qlt_le_weak. apply Qnot_le_lt. intros Hle.
        apply Qle_bool_iff in Hle. congruence. }
      constructor; [now apply IH|].
      rewrite Stdlib.Lists.List.Forall_forall in Hy |- *.
      intros z Hz. apply insert_by_In in Hz as [->|Hz]; [exact Hxy|now apply Hy].
Qed.

Lemma sort_by_sorted {A : Type} (key : A -> Q) (l : list A) :
  StronglySorted (fun a b => (key a <= key b)%Q) (sort_by key l).
Proof.
  induction l as [|y l IH]; [constructor|].
  change (sort_by key (y :: l)) with (insert_by key y (sort_by key l)).
  now apply insert_by_sorted.
Qed.

Lemma round_half_even_bounds (x : Q) (m : Z) :
  (0 <= x)%Q -> (x <= inject_Z m)%Q -> 0 <= round_half_even x <= m.
Proof.
  intros H0 Hm. unfold round_half_even.
  pose proof (Qfloor_le x) as Hfl.
  assert (Hf0 : 0 <= Qfloor x).
  { rewrite <- (Qfloor_Z 0). apply Qfloor_resp_le. exact H0. }
  assert (Hfm : Qfloor x <= m).
  { apply (proj2 (inject_Z_le _ _)). lra. }
  assert (Hup : (1 # 2 <= x - inject_Z (Qfloor x))%Q -> Qfloor x + 1 <= m).
  { intros Hr. assert (Hlt : Qfloor x < m); [|lia].
    apply (proj2 (inject_Z_lt _ _)). lra. }
  destruct (Qlt_bool (x - inject_Z (Qfloor x)) (1 # 2)) eqn:E1; [lia|].
  apply Qlt_bool_false_iff in E1. specialize (Hup E1).
  destruct (Qlt_bool (1 # 2) (x - inject_Z (Qfloor x))); [lia|].
  destruct (Z.even (Qfloor x)); lia.
Qed.

Lemma quantile_nearest_In (data : list Q) (q : Q) :
  data <> [] -> (0 <= q)%Q -> (q <= 1)%Q -> In (quantile_nearest data q) data.
Proof.
  intros Hne Hq0 Hq1. unfold quantile_nearest.
  apply (sort_by_In (fun x => x)). apply nth_In.
  rewrite sort_by_length.
  assert (Hlen : (0 < length data)%nat).
  { destruct data; [congruence|cbn; lia]. }
  assert (Hn : (0 <= inject_Z (Z.of_nat (length data) - 1))%Q).
  { apply (proj1 (inject_Z_le 0 _)). lia. }
  destruct (round_half_even_bounds
              (inject_Z (Z.of_nat (length data) - 1) * q)
              (Z.of_nat (length data) - 1)) as [Hlo Hhi].
  - apply Qmult_le_0_compat; assumption.
  - apply Qle_trans with (inject_Z (Z.of_nat (length data) - 1) * 1)%Q.
    + apply Qmult_le_compat_nonneg; split; try assumption. apply Qle_refl.
    + rewrite Qmult_1_r. apply Qle_refl.
  - lia.
Qed.

(** ** The chunk-size estimator *)

Lemma py_max_ge_l (a b : Q) : (a <= py_max a b)%Q.
Proof.
  unfold py_max. destruct (Qlt_bool a b) eqn:E.
  - apply Qlt_le_weak. now apply Qlt_bool_iff.
  - apply Qle_refl.
Qed.

Lemma rates_In (pairs : list (Q * Q)) (r : Q) :
  In r (rates pairs) ->
  exists p, In p pairs /\ r = (snd p / py_max 1 (fst p))%Q.
Proof.
  unfold rates. rewrite in_map_iff. intros (p & <- & Hp). eauto.
Qed.

Lemma rate_nonneg (observed_resource event_count : Q) :
  (0 <= event_count)%Q -> (0 <= event_count / py_max 1 observed_resource)%Q.
Proof.
  intros He. unfold Qdiv. apply Qmult_le_0_compat; [assumption|].
  apply Qinv_le_0_compat. pose proof (py_max_ge_l 1 observed_resource). lra.
Qed.

Lemma fit_rejected_iff (fit : linregress_result) :
  fit_rejected fit = true <-> fit_implausible fit.
Proof.
  destruct fit as [|[|s] [|i]]; cbn.
  - tauto.
  - split; auto.
  - split; auto.
  - split; auto.
  - rewrite orb_true_iff, !Qlt_bool_iff. split.
    + intros [H|H]; [right; right; left|right; right; right]; eauto.
    + intros [H|[H|[(s' & Hs & Hlt)|(i' & Hi & Hlt)]]]; try discriminate.
      * injection Hs as <-. now left.
      * injection Hi as <-. now right.
Qed.

Lemma py_min_cases (a b : pyfloat) : py_min a b = a \/ py_min a b = b.
Proof. unfold py_min. destruct (float_lt b a); auto. Qed.

Lemma py_min_le (a b : Q) :
  exists m : Q, py_min (fval a) (fval b) = fval m /\ (m <= a)%Q /\ (m <= b)%Q.
Proof.
  unfold py_min, float_lt. destruct (Qlt_bool b a) eqn:E.
  - apply Qlt_bool_iff in E. exists b. auto using Qle_refl, Qlt_le_weak.
  - apply Qlt_bool_false_iff in E. exists a. auto using Qle_refl.
Qed.

(** [min] of a non-empty list is one of its elements; when no element is
    NaN it is at most each of them. *)
Lemma py_min_list_least (x : pyfloat) (xs : list pyfloat) :
  In (py_min_list x xs) (x :: xs) /\
  (Forall (fun c => c <> fnan) (x :: xs) ->
   forall c, In c (x :: xs) -> float_le (py_min_list x xs) c).
Proof.
  unfold py_min_list. revert x. induction xs as [|y xs IH]; intros x.
  - cbn. split; [now left|]. intros Hnan c [<-|[]].
    destruct x as [|a]; [inversion Hnan; congruence|]. cbn. apply Qle_refl.
  - cbn [fold_left]. destruct (IH (py_min x y)) as [Hin Hle]. split.
    + destruct Hin as [Hin|Hin].
      * rewrite <- Hin. destruct (py_min_cases x y) as [-> | ->]; [now left|right; now left].
      * right. now right.
    + intros Hnan c Hc.
      inversion Hnan as [|? ? Hx Hrest]; subst.
      inversion Hrest as [|? ? Hy Hxs]; subst.
      destruct x as [|a]; [congruence|]. destruct y as [|b]; [congruence|].
      destruct (py_min_le a b) as (m & Hm & Hma & Hmb).
      rewrite Hm in *.
      assert (Hall : forall c', In c' (fval m :: xs) ->
                                float_le (fold_left py_min xs (fval m)) c').
      { apply Hle. constructor; [discriminate|exact Hxs]. }
      pose proof (Hall (fval m) ltac:(now left)) as Hself.
      destruct (fold_left py_min xs (fval m)) as [|least]; [destruct Hself|].
      cbn in Hself.
      destruct Hc as [<-|[<-|Hc]].
      * cbn. eapply Qle_trans; eassumption.
      * cbn. eapply Qle_trans; eassumption.
      * apply Hall. now right.
Qed.

Section EstimatorProperties.

Variable quantile : list Q -> Q -> Q.
Variable linregress : list Q -> list Q -> linregress_result.

(** What "nearest" gives: a quantile of a non-empty sample is one of
    its observations. *)
Hypothesis quantile_In :
  forall (data : list Q) (q : Q),
    data <> [] -> (0 <= q)%Q -> (q <= 1)%Q -> In (quantile data q) data.

(** C6, amended: when the first pair's reading is not negative (so that
    the regression is run) and the fit is implausible,
    [_compute_chunksize_target] returns [median_rate * T + 0], where
    [median_rate] is the 50% quantile of the rates
    [event_count / max(1, observed_resource)] and is one of these rates;
    the result is not negative when [T] and the event counts are not
    negative. *)
Theorem compute_chunksize_target_median_fallback
    (target : Q) (pairs : list (Q * Q)) (p0 : Q * Q) :
  head pairs = Some p0 ->
  (0 <= fst p0)%Q ->
  fit_implausible (linregress (map fst (pairs_filtered quantile pairs))
                              (map snd (pairs_filtered quantile pairs))) ->
  let median_rate := quantile (rates pairs) (1 # 2) in
  _compute_chunksize_target quantile linregress target pairs
    = Some (median_rate * target + 0)%Q /\
  In median_rate (rates pairs) /\
  ((0 <= target)%Q -> Forall (fun p => (0 <= snd p)%Q) pairs ->
   (0 <= median_rate * target + 0)%Q).
Proof.
  intros Hhead Hfirst Hfit median_rate.
  destruct pairs as [|p pairs']; [discriminate|].
  injection Hhead as ->.
  assert (Hin : In median_rate (rates (p0 :: pairs'))).
  { apply quantile_In; [discriminate|lra|lra]. }
  split; [|split].
  - unfold _compute_chunksize_target.
    apply Qlt_bool_false_iff in Hfirst. rewrite Hfirst.
    apply fit_rejected_iff in Hfit. rewrite Hfit. reflexivity.
  - exact Hin.
  - intros Ht Hev.
    apply rates_In in Hin as (p & Hp & Hrate).
    rewrite Stdlib.Lists.List.Forall_forall in Hev. specialize (Hev p Hp).
    pose proof (rate_nonneg (fst p) (snd p) Hev) as Hr.
    rewrite <- Hrate in Hr.
    pose proof (Qmult_le_0_compat _ _ Hr Ht). lra.
Qed.

End EstimatorProperties.

Section ChunksizeProperties.

Variable quantile : list Q -> Q -> Q.
Variable linregress : list Q -> list Q -> linregress_result.
Variable floor_log2 : Q -> Z.

(** Without an entry for ["memory"], and with two reports or more,
    [_compute_chunksize] raises whatever the estimator computes. *)
Lemma compute_chunksize_memory_missing
    (base_chunksize : Z) (targets : gmap string (option pyfloat))
    (reports : list TaskReport) :
  targets !! "memory" = None ->
  (1 < length reports)%nat ->
  _compute_chunksize quantile linregress floor_log2 base_chunksize (Some targets) reports
    = Raise (KeyError "memory").
Proof.
  intros Hmem Hlen. unfold _compute_chunksize, chunksize_candidates.
  assert (E : (1 <? Z.of_nat (length reports)) = true) by (apply Z.ltb_lt; lia).
  rewrite E, Hmem. reflexivity.
Qed.

(** With fewer than two reports, or without targets, the result is
    [int(_floor_to_pow2(base_chunksize))]. *)
Lemma compute_chunksize_base
    (base_chunksize : Z) (resource_targets : option (gmap string (option pyfloat)))
    (reports : list TaskReport) :
  resource_targets = None \/ (length reports < 2)%nat ->
  _compute_chunksize quantile linregress floor_log2 base_chunksize resource_targets reports
    = Ok (rounded_chunksize floor_log2 (inject_Z base_chunksize)).
Proof.
  intros H. unfold _compute_chunksize, chunksize_candidates, rounded_chunksize.
  assert (Hgoal : match _floor_to_pow2 floor_log2 (fval (inject_Z base_chunksize)) with
                  | Ok rounded => Ok (py_int rounded)
                  | Raise (ValueError _) => Ok base_chunksize
                  | Raise e => Raise e
                  | Diverged => Diverged
                  end
                  = Ok (py_int (if Qlt_bool (inject_Z base_chunksize) 1 then 1%Q
                                else py_pow2 (floor_log2 (inject_Z base_chunksize))))).
  { cbn [_floor_to_pow2]. destruct (Qlt_bool (inject_Z base_chunksize) 1); reflexivity. }
  destruct resource_targets as [targets|]; [|exact Hgoal].
  destruct H as [H|H]; [discriminate|].
  assert (E : (1 <? Z.of_nat (length reports)) = false) by (apply Z.ltb_ge; lia).
  rewrite E. exact Hgoal.
Qed.

(** With an entry for ["memory"] the two targets are read without an
    exception. *)
Lemma chunksize_candidates_returns
    (targets : gmap string (option pyfloat)) (target_memory : option pyfloat)
    (reports : list TaskReport) :
  targets !! "memory" = Some target_memory ->
  exists chunksize_time chunksize_memory : option pyfloat,
    chunksize_candidates quantile linregress (Some targets) reports
      = Ok (chunksize_time, chunksize_memory).
Proof.
  intros Hmem. unfold chunksize_candidates. rewrite Hmem.
  destruct (1 <? Z.of_nat (length reports)); eauto.
Qed.

(** The candidates that count are those that are neither [None] nor
    zero. *)
Lemma candidate_sizes_In (chunksize_time chunksize_memory : option pyfloat) (c : pyfloat) :
  In c (candidate_sizes chunksize_time chunksize_memory) <->
  (chunksize_time = Some c \/ chunksize_memory = Some c) /\ truthy (Some c) = true.
Proof.
  assert (Hkeep : forall o : option pyfloat,
             (if truthy o then o else None) = Some c <->
             o = Some c /\ truthy (Some c) = true).
  { intros o. destruct (truthy o) eqn:E.
    - split; [intros ->; auto|tauto].
    - split; [discriminate|]. intros [-> Hc]. congruence. }
  unfold candidate_sizes, omap. cbn [list_omap].
  pose proof (Hkeep chunksize_time) as Ht. pose proof (Hkeep chunksize_memory) as Hm.
  destruct (if truthy chunksize_time then chunksize_time else None) as [t|];
    destruct (if truthy chunksize_memory then chunksize_memory else None) as [m|];
    cbn [In]; split.
  - intros [<-|[<-|[]]]; [destruct (proj1 Ht eq_refl)|destruct (proj1 Hm eq_refl)]; auto.
  - intros [[H|H] Hc]; [left|right; left].
    + assert (E : Some t = Some c) by (apply Ht; auto). congruence.
    + assert (E : Some m = Some c) by (apply Hm; auto). congruence.
  - intros [<-|[]]. destruct (proj1 Ht eq_refl). auto.
  - intros [[H|H] Hc]; [left|exfalso].
    + assert (E : Some t = Some c) by (apply Ht; auto). congruence.
    + assert (E : @None pyfloat = Some c) by (apply Hm; auto). discriminate.
  - intros [<-|[]]. destruct (proj1 Hm eq_refl). auto.
  - intros [[H|H] Hc]; [exfalso|left].
    + assert (E : @None pyfloat = Some c) by (apply Ht; auto). discriminate.
    + assert (E : Some m = Some c) by (apply Hm; auto). congruence.
  - intros [].
  - intros [[H|H] Hc]; exfalso.
    + assert (E : @None pyfloat = Some c) by (apply Ht; auto). discriminate.
    + assert (E : @None pyfloat = Some c) by (apply Hm; auto). discriminate.
Qed.

(** The two candidates that [_compute_chunksize] computes are those of
    the requested targets. *)
Lemma chunksize_candidates_requested
    (resource_targets : option (gmap string (option pyfloat))) (reports : list TaskReport)
    (chunksize_time chunksize_memory : option pyfloat) :
  chunksize_candidates quantile linregress resource_targets reports
    = Ok (chunksize_time, chunksize_memory) ->
  chunksize_time
    = target_candidate quantile linregress resource_targets reports "wall_time" wall_time /\
  chunksize_memory
    = target_candidate quantile linregress resource_targets reports "memory" memory.
Proof.
  unfold chunksize_candidates, target_candidate, requested_target.
  destruct resource_targets as [targets|].
  - destruct (1 <? Z.of_nat (length reports)).
    + destruct (targets !! "memory") as [target_memory|]; [|discriminate].
      intros H. injection H as <- <-. split.
      * destruct (targets !! "wall_time") as [[t|]|]; cbn [mjoin option_join mbind option_bind];
          try reflexivity.
        destruct (truthy (Some t)); reflexivity.
      * destruct target_memory as [m|]; try reflexivity.
        destruct (truthy (Some m)); reflexivity.
    + intros H. injection H as <- <-. split; reflexivity.
  - intros H. injection H as <- <-.
    destruct (1 <? Z.of_nat (length reports)); split; reflexivity.
Qed.

(** What [_compute_chunksize] returns on the value [least] that it rounds. *)
Lemma compute_chunksize_rounds (base_chunksize : Z) (least : pyfloat) :
  match _floor_to_pow2 floor_log2 least with
  | Ok rounded => Ok (py_int rounded)
  | Raise (ValueError _) => Ok base_chunksize
  | Raise e => Raise e
  | Diverged => Diverged
  end
  = match least with
    | fnan => Ok base_chunksize
    | fval v => Ok (rounded_chunksize floor_log2 v)
    end.
Proof.
  destruct least as [|v]; [reflexivity|]. unfold rounded_chunksize. cbn [_floor_to_pow2].
  destruct (Qlt_bool v 1); reflexivity.
Qed.

(** C3, amended: where the memory target can be read (the mapping is
    [None], or holds an entry for ["memory"], or there are fewer than two
    reports), [_compute_chunksize] takes the candidates of the requested
    targets that are neither [None] nor zero, and [least], which is
    Python's [min] of them (one of them, and at most each of them when
    none is NaN) or the base chunk size when there is no such candidate,
    as is the case with fewer than two reports. It returns
    [int(_floor_to_pow2(least))], that is 1 for [least < 1] and otherwise
    2 to the power [math.floor(math.log2(least))]; when [least] is NaN
    it returns the base chunk size as it is. *)
Theorem compute_chunksize_min_nonzero_candidate
    (base_chunksize : Z) (resource_targets : option (gmap string (option pyfloat)))
    (reports : list TaskReport) :
  (forall targets,
     resource_targets = Some targets -> (1 < length reports)%nat ->
     is_Some (targets !! "memory")) ->
  exists (candidates : list pyfloat) (least : pyfloat),
    (forall c : pyfloat,
       In c candidates <->
       (target_candidate quantile linregress resource_targets reports
                         "wall_time" wall_time = Some c \/
        target_candidate quantile linregress resource_targets reports
                         "memory" memory = Some c) /\
       truthy (Some c) = true) /\
    (candidates = [] -> least = fval (inject_Z base_chunksize)) /\
    (candidates <> [] ->
       In least candidates /\
       (Forall (fun c => c <> fnan) candidates ->
        forall c, In c candidates -> float_le least c)) /\
    ((length reports < 2)%nat -> candidates = []) /\
    _compute_chunksize quantile linregress floor_log2 base_chunksize resource_targets reports
      = match least with
        | fnan => Ok base_chunksize
        | fval v => Ok (rounded_chunksize floor_log2 v)
        end.
Proof.
  intros Hmem.
  assert (Hret : exists ct cm,
             chunksize_candidates quantile linregress resource_targets reports
               = Ok (ct, cm)).
  { destruct resource_targets as [targets|]; [|cbn; eauto].
    destruct (Nat.lt_ge_cases 1 (length reports)) as [Hlen|Hlen].
    - destruct (Hmem targets eq_refl Hlen) as [m Hm].
      eapply chunksize_candidates_returns. exact Hm.
    - unfold chunksize_candidates.
      assert (E : (1 <? Z.of_nat (length reports)) = false) by (apply Z.ltb_ge; lia).
      rewrite E. eauto. }
  destruct Hret as (ct & cm & Hcand).
  destruct (chunksize_candidates_requested _ _ _ _ Hcand) as [Ht Hm].
  exists (candidate_sizes ct cm),
         (match candidate_sizes ct cm with
          | c :: cs => py_min_list c cs
          | [] => fval (inject_Z base_chunksize)
          end).
  split; [|split; [|split; [|split]]].
  - intros c. rewrite candidate_sizes_In, Ht, Hm. reflexivity.
  - intros ->. reflexivity.
  - destruct (candidate_sizes ct cm) as [|c cs]; [congruence|]. intros _.
    apply py_min_list_least.
  - intros Hlen. rewrite Ht, Hm. unfold target_candidate.
    assert (E : (1 <? Z.of_nat (length reports)) = false) by (apply Z.ltb_ge; lia).
    rewrite E. reflexivity.
  - unfold _compute_chunksize. rewrite Hcand. apply compute_chunksize_rounds.
Qed.

(** What [_compute_chunksize] returns is [int(_floor_to_pow2(v))] for a
    number [v], or the base chunk size. *)
Lemma compute_chunksize_returns
    (base_chunksize : Z) (resource_targets : option (gmap string (option pyfloat)))
    (reports : list TaskReport) (chunksize : Z) :
  _compute_chunksize quantile linregress floor_log2 base_chunksize resource_targets reports
    = Ok chunksize ->
  (exists v : Q, chunksize = rounded_chunksize floor_log2 v) \/ chunksize = base_chunksize.
Proof.
  unfold _compute_chunksize.
  destruct (chunksize_candidates _ _ _ _) as [[ct cm]| |]; try discriminate.
  rewrite compute_chunksize_rounds.
  destruct (match candidate_sizes ct cm with
            | c :: cs => py_min_list c cs
            | [] => fval (inject_Z base_chunksize)
            end) as [|v]; intros H; injection H as <-; eauto.
Qed.

(** When the library's logarithm is not negative from 1 on, as a
    logarithm is, [int(_floor_to_pow2(v))] is a power of two. *)
Lemma rounded_chunksize_power_of_two (v : Q) :
  (forall x : Q, (1 <= x)%Q -> 0 <= floor_log2 x) ->
  exists k : Z, 0 <= k /\ rounded_chunksize floor_log2 v = 2 ^ k.
Proof.
  intros Hlog. unfold rounded_chunksize.
  destruct (Qlt_bool v 1) eqn:E.
  - exists 0. split; [lia|reflexivity].
  - apply Qlt_bool_false_iff in E. specialize (Hlog v E).
    exists (floor_log2 v). split; [exact Hlog|].
    rewrite py_pow2_nonneg by exact Hlog. apply py_int_inject_Z.
Qed.

End ChunksizeProperties.

Lemma compute_chunksize_target_median_fallback_witness :
  _compute_chunksize_target quantile_nearest linregress_least_squares (60 # 1)
                            same_reading_pairs
    = Some (quantile_nearest (rates same_reading_pairs) (1 # 2) * (60 # 1) + 0)%Q /\
  In (quantile_nearest (rates same_reading_pairs) (1 # 2)) (rates same_reading_pairs) /\
  ((0 <= 60 # 1)%Q -> Forall (fun p => (0 <= snd p)%Q) same_reading_pairs ->
   (0 <= quantile_nearest (rates same_reading_pairs) (1 # 2) * (60 # 1) + 0)%Q).
Proof.
  apply (compute_chunksize_target_median_fallback
           quantile_nearest linregress_least_squares quantile_nearest_In
           (60 # 1) same_reading_pairs (10 # 1, 100 # 1)%Q).
  - reflexivity.
  - vm_compute. discriminate.
  - vm_compute. left. reflexivity.
Defined.

(** C6 as stated fails for a negative target: both pairs have the same
    reading, the fit is NaN, the median rate 10 is used, and the
    candidate for the target -1 is -10. *)
Lemma compute_chunksize_target_negative_candidate :
  fit_implausible
    (linregress_least_squares
       (map fst (pairs_filtered quantile_nearest unit_reading_pairs))
       (map snd (pairs_filtered quantile_nearest unit_reading_pairs))) /\
  exists candidate : Q,
    _compute_chunksize_target quantile_nearest linregress_least_squares (-1 # 1)
                              unit_reading_pairs
      = Some candidate /\
    (candidate < 0)%Q.
Proof.
  split.
  - vm_compute. left. reflexivity.
  - eexists. split; [vm_compute; reflexivity|]. vm_compute. reflexivity.
Qed.

(** C5: on [{"wall_time": 60}] and two reports, [_compute_chunksize] does
    not return: reading [resource_targets["memory"]] raises [KeyError]. *)
Theorem compute_chunksize_wall_time_only_raises :
  wall_time_only !! "wall_time" = Some (Some (fval (60 # 1))) /\
  wall_time_only !! "memory" = None /\
  _compute_chunksize quantile_nearest linregress_least_squares floor_log2_double 1024
                     (Some wall_time_only) two_reports
    = Raise (KeyError "memory").
Proof.
  split; [|split]; vm_compute; reflexivity.
Qed.

Lemma compute_chunksize_min_nonzero_candidate_witness :
  exists (candidates : list pyfloat) (least : pyfloat),
    (forall c : pyfloat,
       In c candidates <->
       (target_candidate quantile_nearest linregress_least_squares (Some both_targets)
                         two_reports "wall_time" wall_time = Some c \/
        target_candidate quantile_nearest linregress_least_squares (Some both_targets)
                         two_reports "memory" memory = Some c) /\
       truthy (Some c) = true) /\
    (candidates = [] -> least = fval (inject_Z 1024)) /\
    (candidates <> [] ->
       In least candidates /\
       (Forall (fun c => c <> fnan) candidates ->
        forall c, In c candidates -> float_le least c)) /\
    ((length two_reports < 2)%nat -> candidates = []) /\
    _compute_chunksize quantile_nearest linregress_least_squares floor_log2_double 1024
                       (Some both_targets) two_reports
      = match least with
        | fnan => Ok 1024
        | fval v => Ok (rounded_chunksize floor_log2_double v)
        end.
Proof.
  apply (compute_chunksize_min_nonzero_candidate
           quantile_nearest linregress_least_squares floor_log2_double
           1024 (Some both_targets) two_reports).
  intros targets Htargets _. injection Htargets as <-.
  exists (Some (fval (2048 # 1))). reflexivity.
Defined.

(** C3 as stated fails in three ways.
    - A candidate that is zero is dropped: on [{"wall_time": 5,
      "memory": None}] and the reports of a slow start the wall-time
      candidate is 0, and the base chunk size 1024 is returned.
    - A candidate that is NaN is not rounded: on a NaN wall-time target
      the base chunk size 1000 is returned as it is, and 1000 is no power
      of two.
    - The rounding goes up where the logarithm rounds up: on the target
      [1023.9999999999999] and a rate of one event per second the
      candidate is the target, and 1024 is returned, which is above it. *)
Lemma compute_chunksize_not_the_rounded_minimum :
  ((exists candidate : Q,
      target_candidate quantile_nearest linregress_least_squares (Some five_seconds)
                       slow_start_reports "wall_time" wall_time = Some (fval candidate) /\
      (candidate == 0)%Q) /\
   _compute_chunksize quantile_nearest linregress_least_squares floor_log2_double 1024
                      (Some five_seconds) slow_start_reports
     = Ok 1024) /\
  (target_candidate quantile_nearest linregress_least_squares (Some nan_wall_time)
                    two_reports "wall_time" wall_time = Some fnan /\
   _compute_chunksize quantile_nearest linregress_least_squares floor_log2_double 1000
                      (Some nan_wall_time) two_reports
     = Ok 1000 /\
   forall k : Z, 0 <= k -> 2 ^ k <> 1000) /\
  ((exists candidate : Q,
      target_candidate quantile_nearest linregress_least_squares
                       (Some wall_time_just_below_1024) one_event_per_second
                       "wall_time" wall_time = Some (fval candidate) /\
      (candidate == just_below_1024)%Q /\ (candidate < inject_Z 1024)%Q) /\
   target_candidate quantile_nearest linregress_least_squares
                    (Some wall_time_just_below_1024) one_event_per_second
                    "memory" memory = None /\
   _compute_chunksize quantile_nearest linregress_least_squares floor_log2_double 1000
                      (Some wall_time_just_below_1024) one_event_per_second
     = Ok 1024).
Proof.
  split; [|split].
  - split; [|vm_compute; reflexivity].
    eexists. split; [vm_compute; reflexivity|]. vm_compute. reflexivity.
  - split; [vm_compute; reflexivity|]. split; [vm_compute; reflexivity|].
    intros k Hk E.
    destruct (Z.le_gt_cases k 9) as [H9|H9].
    + assert (H : 2 ^ k <= 2 ^ 9) by (apply Z.pow_le_mono_r; lia).
      change (2 ^ 9) with 512 in H. lia.
    + assert (H : 2 ^ 10 <= 2 ^ k) by (apply Z.pow_le_mono_r; lia).
      change (2 ^ 10) with 1024 in H. lia.
  - split; [|split; vm_compute; reflexivity].
    eexists. split; [vm_compute; reflexivity|]. split; vm_compute; reflexivity.
Qed.

(** ** The monad *)

Lemma bind_ok {A B : Type} (m : M A) (f : A -> M B) (q q1 : CoffeaWQ) (a : A) :
  m q = (Ok a, q1) -> bind m f q = f a q1.
Proof. intros H. unfold bind. now rewrite H. Qed.

Lemma bind_raise {A B : Type} (m : M A) (f : A -> M B) (q q1 : CoffeaWQ) (e : exn) :
  m q = (Raise e, q1) -> bind m f q = (Raise e, q1).
Proof. intros H. unfold bind. now rewrite H. Qed.

(** ** No task is ever constructed *)


Lemma itemid_or_fresh_returns (prefix : string) (id : option string) (q : CoffeaWQ) :
  exists s : string, itemid_or_fresh prefix id q = (Ok s, q).
Proof.
  unfold itemid_or_fresh.
  destruct id as [s|]; [destruct (String.eqb s "")|]; eexists; reflexivity.
Qed.


Lemma new_ProcCoffeaWQTask_raises (fn : string) (item : WorkItem) (id : option string)
    (q : CoffeaWQ) :
  new_ProcCoffeaWQTask fn item id q = (Raise staging_dir_is_a_method, counted q).
Proof.
  unfold new_ProcCoffeaWQTask.
  destruct (itemid_or_fresh_returns "p" id q) as [s Hs].
  rewrite (bind_ok _ _ _ _ _ Hs). reflexivity.
Qed.

Lemma new_AccumCoffeaWQTask_raises (fn : string) (ts : list CoffeaWQTask) (id : option string)
    (q : CoffeaWQ) :
  new_AccumCoffeaWQTask fn ts id q = (Raise staging_dir_is_a_method, counted q).
Proof.
  unfold new_AccumCoffeaWQTask.
  destruct (itemid_or_fresh_returns "accum" id q) as [s Hs].
  rewrite (bind_ok _ _ _ _ _ Hs). reflexivity.
Qed.


(** The loop of [split] raises in the constructor of its first child. *)
Lemma split_loop_first_child (fuel : nat) (fn : string) (item : WorkItem)
    (actual_chunksize start : Z) (q : CoffeaWQ) :
  start < entrystop item ->
  split_loop (S fuel) fn item actual_chunksize start q
    = (Raise staging_dir_is_a_method, counted q).
Proof.
  intros Hlt. cbn [split_loop]. apply Z.ltb_lt in Hlt. rewrite Hlt.
  apply bind_raise. apply new_ProcCoffeaWQTask_raises.
Qed.

Lemma ceil_div_not_diverged (a b : Z) : ceil_div a b <> Diverged.
Proof.
  unfold ceil_div, int_truediv.
  destruct (b =? 0); [discriminate|].
  destruct (double_overflows _); discriminate.
Qed.

(** What [ProcCoffeaWQTask.split] does on an item of two events or more
    once its three divisions returned: it updates the two counters and
    raises in the constructor of the first child. *)
Lemma split_raises_in_first_child (a : TaskAttrs) (item : WorkItem) (q : CoffeaWQ)
    (current target n actual : Z) :
  2 <= WorkItem_len item ->
  current_chunksize q = Some current ->
  (if WorkItem_len item <=? current then ceil_div (WorkItem_len item) 2 else Ok current)
    = Ok target ->
  ceil_div (WorkItem_len item) target = Ok n ->
  ceil_div (WorkItem_len item) (Z.max n 1) = Ok actual ->
  split (ProcCoffeaWQTask a item) q
    = (Raise staging_dir_is_a_method,
       counted
         (set_stats_coffea q
            (StatsOps.min (StatsOps.inc (stats_coffea q) "chunks_split" 1)
                          "min_chunksize_after_split" actual))).
Proof.
  intros Htotal Hcur Htarget Hn Hactual.
  cbn [split]. unfold ProcCoffeaWQTask_split.
  assert (E : (WorkItem_len item <? 2) = false) by (apply Z.ltb_ge; lia).
  rewrite E.
  unfold bind at 1. unfold getattr at 1. rewrite Hcur.
  unfold bind at 1.
  assert (Hstep : (if WorkItem_len item <=? current
                   then lift (ceil_div (WorkItem_len item) 2) else ret current) q
                  = (Ok target, q)).
  { destruct (WorkItem_len item <=? current); unfold lift, ret; congruence. }
  rewrite Hstep.
  unfold bind at 1. unfold lift at 1. rewrite Hn.
  unfold bind at 1. unfold lift at 1. rewrite Hactual.
  unfold bind at 1. unfold modify at 1.
  unfold bind at 1. unfold modify at 1.
  unfold WorkItem_len in Htotal.
  destruct (Z.to_nat (WorkItem_len item)) as [|fuel] eqn:Hfuel;
    [unfold WorkItem_len in Hfuel; lia|].
  rewrite split_loop_first_child by lia.
  reflexivity.
Qed.

(** [split] never returns: it raises, and nothing is submitted and no
    pending result is touched. *)
Lemma split_raises (self : CoffeaWQTask) (q : CoffeaWQ) :
  exists (e : exn) (q' : CoffeaWQ),
    split self q = (Raise e, q') /\
    submitted q' = submitted q /\
    tasks_to_accumulate q' = tasks_to_accumulate q.
Proof.
  destruct self as [a item|a item|a ts];
    try (exists (RuntimeError "task cannot be split any further."), q;
         repeat split; reflexivity).
  destruct (Z.lt_ge_cases (WorkItem_len item) 2) as [Hsmall|Htotal].
  { cbn [split]. unfold ProcCoffeaWQTask_split.
    apply Z.ltb_lt in Hsmall. rewrite Hsmall. do 2 eexists; repeat split; reflexivity. }
  assert (E : (WorkItem_len item <? 2) = false) by (apply Z.ltb_ge; lia).
  destruct (current_chunksize q) as [current|] eqn:Hcur.
  2:{ cbn [split]. unfold ProcCoffeaWQTask_split. rewrite E.
      unfold bind at 1. unfold getattr at 1. rewrite Hcur. do 2 eexists; repeat split; reflexivity. }
  destruct (if WorkItem_len item <=? current
            then ceil_div (WorkItem_len item) 2 else Ok current)
    as [target|e|] eqn:Htarget.
  2:{ cbn [split]. unfold ProcCoffeaWQTask_split. rewrite E.
      unfold bind at 1. unfold getattr at 1. rewrite Hcur.
      unfold bind at 1.
      destruct (WorkItem_len item <=? current); [|discriminate].
      unfold lift at 1. rewrite Htarget. do 2 eexists; repeat split; reflexivity. }
  2:{ destruct (WorkItem_len item <=? current); [|discriminate].
      exfalso. exact (ceil_div_not_diverged _ _ Htarget). }
  assert (Hstep : (if WorkItem_len item <=? current
                   then lift (ceil_div (WorkItem_len item) 2) else ret current) q
                  = (Ok target, q)).
  { destruct (WorkItem_len item <=? current); unfold lift, ret; congruence. }
  destruct (ceil_div (WorkItem_len item) target) as [n|e|] eqn:Hn.
  2:{ cbn [split]. unfold ProcCoffeaWQTask_split. rewrite E.
      unfold bind at 1. unfold getattr at 1. rewrite Hcur.
      unfold bind at 1. rewrite Hstep.
      unfold bind at 1. unfold lift at 1. rewrite Hn. do 2 eexists; repeat split; reflexivity. }
  2:{ exfalso. exact (ceil_div_not_diverged _ _ Hn). }
  destruct (ceil_div (WorkItem_len item) (Z.max n 1)) as [actual|e|] eqn:Hactual.
  2:{ cbn [split]. unfold ProcCoffeaWQTask_split. rewrite E.
      unfold bind at 1. unfold getattr at 1. rewrite Hcur.
      unfold bind at 1. rewrite Hstep.
      unfold bind at 1. unfold lift at 1. rewrite Hn.
      unfold bind at 1. unfold lift at 1. rewrite Hactual. do 2 eexists; repeat split; reflexivity. }
  2:{ exfalso. exact (ceil_div_not_diverged _ _ Hactual). }
  rewrite (split_raises_in_first_child a item q current target n actual)
    by assumption.
  do 2 eexists. split; [reflexivity|]. split; reflexivity.
Qed.


(** C2: [ProcCoffeaWQTask.split] returns no child. Whatever the task and
    the queue, [split] raises; on the item [[0, 8)] with a current chunk
    size of 4 it computes two children of 4 events, counts the split, and
    raises [TypeError] in the constructor of the first child. *)
Theorem split_returns_no_child :
  (forall (self : CoffeaWQTask) (q : CoffeaWQ),
     exists (e : exn) (q' : CoffeaWQ), split self q = (Raise e, q')) /\
  WorkItem_len example_item = 8 /\
  current_chunksize chunksize_4_queue = Some 4 /\
  split example_task chunksize_4_queue
    = (Raise staging_dir_is_a_method,
       counted
         (set_stats_coffea chunksize_4_queue
            {[ "current_chunksize" := 4; "chunks_split" := 1;
               "min_chunksize_after_split" := 4 ]})).
Proof.
  split; [|split; [|split]].
  - intros self q. destruct (split_raises self q) as (e & q' & Hs & _). eauto.
  - reflexivity.
  - reflexivity.
  - vm_compute. reflexivity.
Qed.





(** ** The accumulation scheduler *)



(** X13: a task that ran out of resources and cannot be split is not
    retried: whatever retries it has left, [resubmit] raises for a
    preprocessing or an accumulation task, and for a processing task of
    fewer than two events; nothing is submitted. *)
Theorem resubmit_exhausted_indivisible (self : CoffeaWQTask) (q : CoffeaWQ) :
  split_on_exhaustion (executor q) = true ->
  1 <= retries_to_go (attrs_of self) ->
  result (attrs_of self) = WORK_QUEUE_RESULT_RESOURCE_EXHAUSTION ->
  match self with
  | ProcCoffeaWQTask _ item =>
      WorkItem_len item < 2 ->
      resubmit self q
        = (Raise (RuntimeError "processing task cannot be split any further."), q)
  | _ =>
      resubmit self q = (Raise (RuntimeError "task cannot be split any further."), q)
  end.
Proof.
  intros Hsplit Hbudget Hres.
  assert (E : (retries_to_go (attrs_of self) <? 1) = false) by (apply Z.ltb_ge; lia).
  destruct self as [a item|a item|a ts]; [| intros Hlen |];
    unfold resubmit; unfold bind at 1; unfold gets at 1;
    rewrite Hsplit, Hres, E; cbn [orb negb wq_result_eqb];
    try reflexivity.
  unfold bind at 1. cbn [split]. unfold ProcCoffeaWQTask_split.
  apply Z.ltb_lt in Hlen. rewrite Hlen. reflexivity.
Qed.

Lemma resubmit_exhausted_indivisible_witness :
  resubmit (AccumCoffeaWQTask
              (mkTaskAttrs "accum_4" 10 3 "accum.p"
                           WORK_QUEUE_RESULT_RESOURCE_EXHAUSTION (3 # 1) 0%Q)
              [task_A; task_B])
           (example_queue true)
    = (Raise (RuntimeError "task cannot be split any further."), example_queue true).
Proof.
  apply (resubmit_exhausted_indivisible
           (AccumCoffeaWQTask
              (mkTaskAttrs "accum_4" 10 3 "accum.p"
                           WORK_QUEUE_RESULT_RESOURCE_EXHAUSTION (3 # 1) 0%Q)
              [task_A; task_B])
           (example_queue true)).
  - reflexivity.
  - vm_compute. discriminate.
  - reflexivity.
Defined.

(** * Further properties *)

(** ** The counters *)

Lemma Stats_inc_lookup (s : Stats) (k : string) (d : Z) :
  StatsOps.inc s k d !! k = Some (default 0 (s !! k) + d).
Proof.
  unfold StatsOps.inc. destruct (s !! k) eqn:E; rewrite lookup_insert_eq; reflexivity.
Qed.

Lemma Stats_inc_other (s : Stats) (k k' : string) (d : Z) :
  k' <> k -> StatsOps.inc s k d !! k' = s !! k'.
Proof.
  intros Hne. unfold StatsOps.inc.
  destruct (s !! k); apply lookup_insert_ne; congruence.
Qed.

(** X1: a series of [inc] on one counter stores the sum of the deltas on
    top of what the counter held (nothing counts as 0), and changes no
    other counter. *)
Theorem Stats_inc_sums_deltas (s : Stats) (k : string) (d : Z) (ds : list Z) :
  fold_left (fun s' d' => StatsOps.inc s' k d') (d :: ds) s !! k
    = Some (default 0 (s !! k) + fold_right Z.add 0 (d :: ds)) /\
  forall k', k' <> k ->
    fold_left (fun s' d' => StatsOps.inc s' k d') (d :: ds) s !! k' = s !! k'.
Proof.
  revert s d. induction ds as [|d2 ds IH]; intros s d.
  - cbn. split.
    + rewrite Stats_inc_lookup. f_equal. lia.
    + intros k' Hne. now apply Stats_inc_other.
  - change (fold_left (fun s' d' => StatsOps.inc s' k d') (d :: d2 :: ds) s)
      with (fold_left (fun s' d' => StatsOps.inc s' k d') (d2 :: ds) (StatsOps.inc s k d)).
    destruct (IH (StatsOps.inc s k d) d2) as [Hk Hother]. split.
    + rewrite Hk, Stats_inc_lookup. cbn. f_equal. lia.
    + intros k' Hne. rewrite Hother by assumption. now apply Stats_inc_other.
Qed.

Lemma Stats_max_lookup (s : Stats) (k : string) (v : Z) :
  StatsOps.max s k v !! k = Some (from_option (fun v0 => Z.max v0 v) v (s !! k)).
Proof.
  unfold StatsOps.max. destruct (s !! k); rewrite lookup_insert_eq; reflexivity.
Qed.

Lemma Stats_min_lookup (s : Stats) (k : string) (v : Z) :
  StatsOps.min s k v !! k = Some (from_option (fun v0 => Z.min v0 v) v (s !! k)).
Proof.
  unfold StatsOps.min. destruct (s !! k); rewrite lookup_insert_eq; reflexivity.
Qed.

Lemma is_max_of_step (x v : Z) (l : list Z) :
  is_max_of x l -> is_max_of (Z.max x v) (l ++ [v]).
Proof.
  intros [Hin Hle]. split.
  - apply in_or_app. destruct (Z.max_spec x v) as [[_ ->]|[_ ->]]; [right; now left|now left].
  - intros y Hy. apply in_app_or in Hy as [Hy|[<-|[]]]; [specialize (Hle y Hy)|]; lia.
Qed.

Lemma is_min_of_step (x v : Z) (l : list Z) :
  is_min_of x l -> is_min_of (Z.min x v) (l ++ [v]).
Proof.
  intros [Hin Hle]. split.
  - apply in_or_app. destruct (Z.min_spec x v) as [[_ ->]|[_ ->]]; [now left|right; now left].
  - intros y Hy. apply in_app_or in Hy as [Hy|[<-|[]]]; [specialize (Hle y Hy)|]; lia.
Qed.

(** X2: a series of [max] (of [min]) on one counter stores the maximum
    (the minimum) of the values given and of what the counter held. *)
Theorem Stats_max_min_running_extreme (s : Stats) (k : string) (v : Z) (vs : list Z) :
  (exists x,
     fold_left (fun s' v' => StatsOps.max s' k v') (v :: vs) s !! k = Some x /\
     is_max_of x (option_list (s !! k) ++ v :: vs)) /\
  (exists x,
     fold_left (fun s' v' => StatsOps.min s' k v') (v :: vs) s !! k = Some x /\
     is_min_of x (option_list (s !! k) ++ v :: vs)).
Proof.
  split.
  - assert (Hgen : forall vs' s' x l,
               s' !! k = Some x -> is_max_of x l ->
               exists y, fold_left (fun s'' v' => StatsOps.max s'' k v') vs' s' !! k = Some y /\
                         is_max_of y (l ++ vs')).
    { induction vs' as [|w vs' IH]; intros s' x l Hx Hmax.
      - exists x. cbn. rewrite app_nil_r. auto.
      - cbn [fold_left].
        destruct (IH (StatsOps.max s' k w) (Z.max x w) (l ++ [w])) as (y & Hy & Hmaxy).
        + now rewrite Stats_max_lookup, Hx.
        + now apply is_max_of_step.
        + exists y. split; [exact Hy|]. now rewrite <- app_assoc in Hmaxy. }
    cbn [fold_left].
    destruct (Hgen vs (StatsOps.max s k v)
                (from_option (fun v0 => Z.max v0 v) v (s !! k))
                (option_list (s !! k) ++ [v])) as (y & Hy & Hmaxy).
    + apply Stats_max_lookup.
    + destruct (s !! k) as [v0|]; cbn.
      * apply (is_max_of_step v0 v [v0]). split; [now left|]. intros y [<-|[]]. lia.
      * split; [now left|]. intros y [<-|[]]. lia.
    + exists y. split; [exact Hy|]. now rewrite <- app_assoc in Hmaxy.
  - assert (Hgen : forall vs' s' x l,
               s' !! k = Some x -> is_min_of x l ->
               exists y, fold_left (fun s'' v' => StatsOps.min s'' k v') vs' s' !! k = Some y /\
                         is_min_of y (l ++ vs')).
    { induction vs' as [|w vs' IH]; intros s' x l Hx Hmin.
      - exists x. cbn. rewrite app_nil_r. auto.
      - cbn [fold_left].
        destruct (IH (StatsOps.min s' k w) (Z.min x w) (l ++ [w])) as (y & Hy & Hminy).
        + now rewrite Stats_min_lookup, Hx.
        + now apply is_min_of_step.
        + exists y. split; [exact Hy|]. now rewrite <- app_assoc in Hminy. }
    cbn [fold_left].
    destruct (Hgen vs (StatsOps.min s k v)
                (from_option (fun v0 => Z.min v0 v) v (s !! k))
                (option_list (s !! k) ++ [v])) as (y & Hy & Hminy).
    + apply Stats_min_lookup.
    + destruct (s !! k) as [v0|]; cbn.
      * apply (is_min_of_step v0 v [v0]). split; [now left|]. intros y [<-|[]]. lia.
      * split; [now left|]. intros y [<-|[]]. lia.
    + exists y. split; [exact Hy|]. now rewrite <- app_assoc in Hminy.
Qed.

(** X3: reading a counter that is missing does not change what a later
    [inc] stores, but it changes what a later [min] stores: [get] has
    inserted 0, and the minimum is taken with it. *)
Theorem Stats_get_then_inc_min (s : Stats) (k : string) (d : option Z) (v : Z) :
  s !! k = None ->
  StatsOps.inc (snd (StatsOps.get s k d)) k v = StatsOps.inc s k v /\
  StatsOps.min s k v !! k = Some v /\
  StatsOps.min (snd (StatsOps.get s k d)) k v !! k = Some (Z.min 0 v) /\
  StatsOps.max (snd (StatsOps.get s k d)) k v !! k = Some (Z.max 0 v).
Proof.
  intros Hnone. unfold StatsOps.get, StatsOps.setdefault. rewrite Hnone. cbn [snd].
  split; [|split; [|split]].
  - unfold StatsOps.inc. rewrite lookup_insert_eq, Hnone, insert_insert_eq. reflexivity.
  - rewrite Stats_min_lookup, Hnone. reflexivity.
  - rewrite Stats_min_lookup, lookup_insert_eq. reflexivity.
  - rewrite Stats_max_lookup, lookup_insert_eq. reflexivity.
Qed.

Lemma Stats_get_then_inc_min_witness :
  StatsOps.inc (snd (StatsOps.get counters_without_done "chunks_split" None)) "chunks_split" 5
    = StatsOps.inc counters_without_done "chunks_split" 5 /\
  StatsOps.min counters_without_done "chunks_split" 5 !! "chunks_split" = Some 5 /\
  StatsOps.min (snd (StatsOps.get counters_without_done "chunks_split" None))
               "chunks_split" 5 !! "chunks_split" = Some (Z.min 0 5) /\
  StatsOps.max (snd (StatsOps.get counters_without_done "chunks_split" None))
               "chunks_split" 5 !! "chunks_split" = Some (Z.max 0 5).
Proof.
  apply (Stats_get_then_inc_min counters_without_done "chunks_split" None 5).
  reflexivity.
Defined.

(** ** The regression and its sample *)

Lemma combine_rates (pairs : list (Q * Q)) :
  combine pairs (rates pairs)
    = map (fun p => (p, (snd p / py_max 1 (fst p))%Q)) pairs.
Proof.
  unfold rates. induction pairs as [|p pairs IH]; [reflexivity|].
  cbn. now rewrite IH.
Qed.

Section EstimatorMore.

Variable quantile : list Q -> Q -> Q.
Variable linregress : list Q -> list Q -> linregress_result.

(** X6: [_compute_chunksize_target] returns [None] exactly when there is
    no pair or the first pair's reading is negative; the target and the
    other pairs play no part in it. *)
Theorem compute_chunksize_target_none_iff (target : Q) (pairs : list (Q * Q)) :
  _compute_chunksize_target quantile linregress target pairs = None <->
  match pairs with
  | [] => True
  | p0 :: _ => (fst p0 < 0)%Q
  end.
Proof.
  unfold _compute_chunksize_target. destruct pairs as [|p0 pairs']; [tauto|].
  destruct (Qlt_bool (fst p0) 0) eqn:E.
  - apply Qlt_bool_iff in E. tauto.
  - apply Qlt_bool_false_iff in E. split.
    + destruct (fit_rejected _); [discriminate|].
      destruct (linregress _ _) as [|[|s] [|i]]; discriminate.
    + intros Hlt. exfalso. exact (Qlt_not_le _ _ Hlt E).
Qed.

(** X7: a fit that passes the test is used as it is: a slope that is
    not negative with an intercept that is not positive gives the
    candidate [slope * target + intercept]. *)
Theorem compute_chunksize_target_uses_plausible_fit
    (target : Q) (pairs : list (Q * Q)) (p0 : Q * Q) (slope intercept : Q) :
  head pairs = Some p0 ->
  (0 <= fst p0)%Q ->
  linregress (map fst (pairs_filtered quantile pairs))
             (map snd (pairs_filtered quantile pairs))
    = LinregressResult (fval slope) (fval intercept) ->
  (0 <= slope)%Q ->
  (intercept <= 0)%Q ->
  _compute_chunksize_target quantile linregress target pairs
    = Some (slope * target + intercept)%Q.
Proof.
  intros Hhead Hfirst Hfit Hs Hi.
  destruct pairs as [|p pairs']; [discriminate|]. injection Hhead as ->.
  unfold _compute_chunksize_target.
  apply Qlt_bool_false_iff in Hfirst. rewrite Hfirst, Hfit.
  cbn [fit_rejected].
  apply Qlt_bool_false_iff in Hs. apply Qlt_bool_false_iff in Hi.
  rewrite Hs, Hi. reflexivity.
Qed.

(** What "nearest" gives at the level 25%. *)
Hypothesis quantile_In :
  forall (data : list Q) (q : Q),
    data <> [] -> (0 <= q)%Q -> (q <= 1)%Q -> In (quantile data q) data.

(** X9: the regression is never run on an empty sample: of a non-empty
    list of pairs, the filter on the 25% quantile keeps at least the pair
    whose rate is this quantile, and what it keeps is a sub-list of the
    pairs. *)
Theorem pairs_filtered_nonempty_sublist (pairs : list (Q * Q)) :
  pairs <> [] ->
  pairs_filtered quantile pairs <> [] /\
  sublist (pairs_filtered quantile pairs) pairs.
Proof.
  intros Hne. unfold pairs_filtered. rewrite combine_rates.
  set (q25 := quantile (rates pairs) (1 # 4)).
  assert (Hq : In q25 (rates pairs)).
  { apply quantile_In; [|lra|lra]. unfold rates. destruct pairs; [congruence|discriminate]. }
  apply rates_In in Hq as (p & Hp & Hrate).
  clearbody q25. clear Hne. split.
  - intros Hnil.
    assert (Hin : In p (map fst (List.filter (fun pa => Qle_bool q25 (snd pa))
                       (map (fun p1 => (p1, (snd p1 / py_max 1 (fst p1))%Q)) pairs)))).
    { apply in_map_iff. exists (p, (snd p / py_max 1 (fst p))%Q). split; [reflexivity|].
      apply filter_In. split.
      - apply in_map_iff. eauto.
      - cbn. rewrite <- Hrate. apply Qle_bool_iff. apply Qle_refl. }
    rewrite Hnil in Hin. destruct Hin.
  - clear Hp Hrate p. induction pairs as [|p1 pairs IH]; [constructor|].
    cbn. destruct (Qle_bool q25 _); cbn.
    + now apply sublist_skip.
    + now apply sublist_cons.
Qed.

End EstimatorMore.

Lemma pairs_filtered_nonempty_sublist_witness :
  pairs_filtered quantile_nearest same_reading_pairs <> [] /\
  sublist (pairs_filtered quantile_nearest same_reading_pairs) same_reading_pairs.
Proof.
  apply (pairs_filtered_nonempty_sublist quantile_nearest quantile_nearest_In
           same_reading_pairs).
  discriminate.
Defined.

Lemma compute_chunksize_target_uses_plausible_fit_witness :
  exists slope intercept : Q,
    _compute_chunksize_target quantile_nearest linregress_least_squares (60 # 1)
      (map (fun r => (memory r, inject_Z (events_count r))) two_reports)
      = Some (slope * (60 # 1) + intercept)%Q.
Proof.
  eexists _, _.
  eapply (compute_chunksize_target_uses_plausible_fit
            quantile_nearest linregress_least_squares (60 # 1)
            (map (fun r => (memory r, inject_Z (events_count r))) two_reports)
            (50 # 1, inject_Z 100)).
  - reflexivity.
  - vm_compute. discriminate.
  - vm_compute. reflexivity.
  - vm_compute. discriminate.
  - vm_compute. discriminate.
Defined.

(** ** Groups of a list *)

Lemma range_step_nil (step : nat) : (0 < step)%nat -> range_step 0 step = [].
Proof.
  intros H. unfold range_step. cbn [Nat.add].
  rewrite Nat.div_small by lia. reflexivity.
Qed.

Lemma range_step_pos (stop step : nat) :
  (0 < step)%nat -> (0 < stop)%nat ->
  range_step stop step = 0%nat :: map (fun i => (step + i)%nat) (range_step (stop - step) step).
Proof.
  intros Hstep Hstop. unfold range_step.
  assert (E : Nat.div (stop + step - 1) step = S (Nat.div (stop - step + step - 1) step)).
  { destruct (Nat.le_gt_cases step stop) as [Hle|Hgt].
    - replace (stop + step - 1)%nat with ((stop - 1) + 1 * step)%nat by lia.
      rewrite Nat.div_add by lia.
      replace (stop - step + step - 1)%nat with (stop - 1)%nat by lia. lia.
    - replace (stop - step + step - 1)%nat with (step - 1)%nat by lia.
      rewrite (Nat.div_small (step - 1)) by lia.
      replace (stop + step - 1)%nat with ((stop - 1) + 1 * step)%nat by lia.
      rewrite Nat.div_add by lia. rewrite Nat.div_small by lia. reflexivity. }
  rewrite E. cbn [seq map]. f_equal.
  rewrite <- seq_shift, !map_map. apply map_ext. intros j. lia.
Qed.

Lemma group_slices_nil {A : Type} (n : nat) : (0 < n)%nat -> group_slices (@nil A) n = [].
Proof. intros H. unfold group_slices. cbn [length]. now rewrite range_step_nil. Qed.

Lemma group_slices_cons {A : Type} (lst : list A) (n : nat) :
  (0 < n)%nat -> lst <> [] ->
  group_slices lst n = firstn n lst :: group_slices (skipn n lst) n.
Proof.
  intros Hn Hne. unfold group_slices.
  rewrite range_step_pos; [|lia|destruct lst; [congruence|cbn; lia]].
  cbn [map]. f_equal. rewrite length_skipn, map_map.
  apply map_ext. intros i. unfold slice. now rewrite skipn_skipn, Nat.add_comm.
Qed.

(** The groups of a list of [m * n + r] elements, [r < n]: [m] groups of
    [n] elements, then one of [r] elements when [r > 0]; together they
    are the list. *)
Lemma group_slices_shape {A : Type} (n : nat) (m r : nat) :
  (0 < n)%nat -> (r < n)%nat ->
  forall lst : list A,
    length lst = (m * n + r)%nat ->
    exists (full : list (list A)) (rest : list (list A)),
      group_slices lst n = full ++ rest /\
      length full = m /\
      Forall (fun g => length g = n) full /\
      rest = (if Nat.eqb r 0 then [] else [skipn (m * n) lst]) /\
      concat full = firstn (m * n) lst.
Proof.
  intros Hn Hr. induction m as [|m IH]; intros lst Hlen.
  - exists []. cbn [Nat.mul Nat.add] in *. destruct (Nat.eqb_spec r 0) as [->|Hne].
    + exists []. destruct lst; [|discriminate].
      rewrite group_slices_nil by lia. repeat split. constructor.
    + exists [lst]. rewrite group_slices_cons; [|lia|destruct lst; [cbn in Hlen; lia|discriminate]].
      rewrite firstn_all2 by lia.
      rewrite skipn_all2 by lia. rewrite group_slices_nil by lia.
      repeat split. constructor.
  - assert (Hne : lst <> []) by (destruct lst; [cbn in Hlen; lia|discriminate]).
    destruct (IH (skipn n lst)) as (full & rest & Hg & Hfl & Hall & Hrest & Hcat).
    { rewrite length_skipn. lia. }
    exists (firstn n lst :: full), rest.
    rewrite group_slices_cons by assumption. rewrite Hg.
    split; [reflexivity|]. split; [cbn; lia|]. split.
    + constructor; [|exact Hall]. rewrite length_firstn. lia.
    + split.
      * rewrite Hrest. destruct (Nat.eqb r 0); [reflexivity|].
        rewrite skipn_skipn. do 2 f_equal. lia.
      * cbn [concat]. rewrite Hcat.
        replace (S m * n)%nat with (n + m * n)%nat by lia.
        rewrite <- (firstn_skipn n lst) at 3.
        rewrite firstn_app, length_firstn.
        replace (Nat.min n (length lst)) with n by lia.
        replace (n + m * n - n)%nat with (m * n)%nat by lia.
        rewrite firstn_firstn. replace (Nat.min (n + m * n) n) with n by lia.
        reflexivity.
Qed.

(** ** _group_lst *)

(** The groups of a list, for a positive size [k]: full groups, then at
    most one shorter group; together they are the list. *)
Lemma group_slices_partition {A : Type} (lst : list A) (k : nat) :
  (0 < k)%nat ->
  exists (full : list (list A)) (short : list (list A)),
    group_slices lst k = full ++ short /\
    concat (full ++ short) = lst /\
    Forall (fun g => length g = k) full /\
    (short = [] \/ exists g, short = [g] /\ (1 <= length g < k)%nat).
Proof.
  intros Hk.
  pose proof (Nat.div_mod_eq (length lst) k) as Hdm.
  pose proof (Nat.mod_upper_bound (length lst) k ltac:(lia)) as Hr.
  destruct (group_slices_shape k (Nat.div (length lst) k) (Nat.modulo (length lst) k)
              Hk Hr lst ltac:(lia))
    as (full & rest & Hg & Hfl & Hall & Hrest & Hcat).
  exists full, rest. split; [exact Hg|].
  split; [|split; [exact Hall|]].
  - rewrite concat_app, Hcat, Hrest.
    destruct (Nat.eqb_spec (Nat.modulo (length lst) k) 0) as [Hz|Hnz].
    + cbn [concat]. rewrite app_nil_r. apply firstn_all2. lia.
    + cbn [concat]. rewrite app_nil_r. apply firstn_skipn.
  - rewrite Hrest.
    destruct (Nat.eqb_spec (Nat.modulo (length lst) k) 0) as [Hz|Hnz]; [left; reflexivity|].
    right. eexists. split; [reflexivity|]. rewrite length_skipn. lia.
Qed.

(** X14: for a positive [n], [_group_lst] cuts the list into consecutive
    groups that together are the list: groups of exactly [n] elements,
    followed by at most one shorter group, which is not empty. *)
Theorem group_lst_partitions {A : Type} (lst : list A) (n : Z) :
  0 < n ->
  exists (full : list (list A)) (short : list (list A)),
    _group_lst lst n = Ok (full ++ short) /\
    concat (full ++ short) = lst /\
    Forall (fun g => length g = Z.to_nat n) full /\
    (short = [] \/ exists g, short = [g] /\ (1 <= length g < Z.to_nat n)%nat).
Proof.
  intros Hn. unfold _group_lst.
  assert (E0 : (n =? 0) = false) by (apply Z.eqb_neq; lia).
  assert (E1 : (n <? 0) = false) by (apply Z.ltb_ge; lia).
  rewrite E0, E1.
  destruct (group_slices_partition lst (Z.to_nat n) ltac:(lia))
    as (full & short & Hg & Hcat & Hall & Hshort).
  exists full, short. rewrite Hg. auto.
Qed.

Lemma group_lst_partitions_witness :
  exists (full : list (list Z)) (short : list (list Z)),
    _group_lst [1; 2; 3; 4; 5] 2 = Ok (full ++ short) /\
    concat (full ++ short) = [1; 2; 3; 4; 5] /\
    Forall (fun g => length g = Z.to_nat 2) full /\
    (short = [] \/ exists g, short = [g] /\ (1 <= length g < Z.to_nat 2)%nat).
Proof. apply (group_lst_partitions [1; 2; 3; 4; 5] 2). lia. Defined.

(** ** accumulate_result_files, monitoring, the check of the targets *)

Lemma accumulate_popped_snoc {R : Type} (read : string -> R) (nonempty : R -> bool)
    (f : string) (popped : list string) :
  forall accumulator : option R,
    accumulate_popped R read nonempty (popped ++ [f]) accumulator =
    if negb (accumulator_truthy R nonempty accumulator)
       && forallb (fun g => negb (nonempty (read g))) popped
    then Returned (Some (read f)) else NameError "result_f".
Proof.
  induction popped as [|g popped IH]; intros accumulator; cbn [app accumulate_popped forallb].
  - rewrite andb_true_r. reflexivity.
  - destruct (negb (accumulator_truthy R nonempty accumulator)); [|reflexivity].
    rewrite IH. reflexivity.
Qed.

Lemma forallb_rev {A : Type} (p : A -> bool) (l : list A) :
  forallb p (rev l) = forallb p l.
Proof.
  induction l as [|x l IH]; [reflexivity|].
  cbn [rev forallb]. rewrite forallb_app, IH. cbn. rewrite andb_true_r. apply andb_comm.
Qed.

(** X19: [accumulate_result_files] returns only when it has nothing to
    merge. Without files it returns the accumulator it was given.
    With files, it returns (the result of the first file) exactly when
    the accumulator it was given is empty or [None] and the results of
    all the other files are empty; in every other case the call of
    [accumulate] is reached and raises a [NameError] on [result_f]. *)
Theorem accumulate_result_files_cases {R : Type} (read : string -> R) (nonempty : R -> bool)
    (f : string) (files : list string) (accumulator : option R) :
  accumulate_result_files R read nonempty [] accumulator = Returned accumulator /\
  accumulate_result_files R read nonempty (f :: files) accumulator =
    if negb (accumulator_truthy R nonempty accumulator)
       && forallb (fun g => negb (nonempty (read g))) files
    then Returned (Some (read f)) else NameError "result_f".
Proof.
  split; [reflexivity|].
  unfold accumulate_result_files. cbn [rev].
  now rewrite accumulate_popped_snoc, forallb_rev.
Qed.

(** X20: what [_declare_resources] decides on monitoring. Monitoring is
    left off in one case only: the resources mode is ["fixed"] and the
    resource monitor is [None], empty or ["off"]. And when monitoring is
    enabled, the watchdog is on unless the resource monitor is
    ["measure"]. *)
Theorem monitoring_cases (resource_monitor : option string) (resources_mode : string) :
  (monitoring resource_monitor resources_mode = None <->
   resources_mode = "fixed" /\
   (resource_monitor = None \/ resource_monitor = Some "" \/ resource_monitor = Some "off")) /\
  (monitoring resource_monitor resources_mode = Some false <->
   resource_monitor = Some "measure").
Proof.
  unfold monitoring.
  destruct resource_monitor as [s|].
  - destruct (String.eqb_spec s "") as [->|Hempty];
      [|destruct (String.eqb_spec s "off") as [->|Hoff];
        [|destruct (String.eqb_spec s "measure") as [->|Hmeasure]]];
      cbn [orb]; destruct (String.eqb_spec resources_mode "fixed") as [->|Hmode];
      cbn [negb]; intuition (try discriminate; try congruence).
  - cbn [orb]. destruct (String.eqb_spec resources_mode "fixed") as [->|Hmode];
      cbn [negb]; intuition (try discriminate; try congruence).
Qed.

(** X21: [_check_dynamic_chunksize_targets] returns exactly on the
    mappings whose keys are all among ["wall_time"] and ["memory"]; on
    any other mapping it raises the [KeyError] that names the first key
    that is not. *)
Theorem check_dynamic_chunksize_targets_cases (keys : list string) :
  (_check_dynamic_chunksize_targets (Some keys) = Ok tt <->
   Forall (fun k => k = "wall_time" \/ k = "memory") keys) /\
  (forall out, _check_dynamic_chunksize_targets (Some keys) = out -> out <> Ok tt ->
     exists known k rest,
       keys = known ++ k :: rest /\
       Forall (fun k => k = "wall_time" \/ k = "memory") known /\
       k <> "wall_time" /\ k <> "memory" /\
       out = Raise (unknown_resource k)).
Proof.
  cbn [_check_dynamic_chunksize_targets].
  induction keys as [|k keys [IHok IHraise]]; cbn [check_target_keys].
  - split; [split; [constructor|reflexivity]|]. intros out <- H. congruence.
  - destruct (String.eqb_spec k "wall_time") as [->|Hw]; cbn [orb];
      [|destruct (String.eqb_spec k "memory") as [->|Hm]].
    + split.
      * rewrite IHok. split; [intros H; constructor; auto|intros H; now inversion H].
      * intros out Hout Hne.
        destruct (IHraise out Hout Hne) as (known & k & rest & -> & Hknown & Hk1 & Hk2 & He).
        exists ("wall_time" :: known), k, rest. repeat split; auto.
    + split.
      * rewrite IHok. split; [intros H; constructor; auto|intros H; now inversion H].
      * intros out Hout Hne.
        destruct (IHraise out Hout Hne) as (known & k & rest & -> & Hknown & Hk1 & Hk2 & He).
        exists ("memory" :: known), k, rest. repeat split; auto.
    + split.
      * split; [discriminate|]. intros H. inversion H as [|? ? [Hk|Hk] ?]; congruence.
      * intros out <- _. exists [], k, keys. repeat split; auto.
Qed.


(** ** Halving in doubles *)

Lemma round_half_even_integer (x : Q) (m : Z) :
  (x == inject_Z m)%Q -> round_half_even x = m.
Proof.
  intros Hx. unfold round_half_even.
  assert (Hf : Qfloor x = m) by (rewrite Hx; apply Qfloor_Z).
  rewrite Hf.
  assert (E : Qlt_bool (x - inject_Z m) (1 # 2) = true).
  { apply Qlt_bool_iff. rewrite Hx. lra. }
  now rewrite E.
Qed.

Lemma log2_half (c : Z) : 2 <= c -> Z.log2 (c / 2) = Z.log2 c - 1.
Proof.
  intros Hc.
  destruct (Z.log2_spec c) as [Hlo Hhi]; [lia|].
  assert (Hl : 1 <= Z.log2 c).
  { change 1 with (Z.log2 2). apply Z.log2_le_mono. lia. }
  apply Z.log2_unique; [lia|].
  replace (Z.succ (Z.log2 c - 1)) with (Z.log2 c) by lia.
  assert (Hpow : 2 ^ Z.log2 c = 2 * 2 ^ (Z.log2 c - 1)).
  { rewrite <- Z.pow_succ_r by lia. f_equal. lia. }
  split.
  - apply Z.div_le_lower_bound; lia.
  - apply Z.div_lt_upper_bound; [lia|].
    rewrite Z.pow_succ_r in Hhi by lia. lia.
Qed.

(** Half of an [int] below [2 ** 53] is a double: the division is exact. *)
Lemma round_to_double_half (c : Z) :
  2 <= c < 2 ^ 53 -> (round_to_double (c # 2) == c # 2)%Q.
Proof.
  intros [Hlo Hhi].
  assert (Hl : 1 <= Z.log2 c <= 52).
  { split.
    - change 1 with (Z.log2 2). apply Z.log2_le_mono. lia.
    - assert (Z.log2 c < 53); [|lia]. apply Z.log2_lt_pow2; lia. }
  unfold round_to_double.
  assert (E0 : Qeq_bool (c # 2) 0 = false).
  { destruct (Qeq_bool (c # 2) 0) eqn:E; [|reflexivity].
    apply Qeq_bool_eq in E. unfold Qeq in E. cbn in E. lia. }
  rewrite E0.
  assert (Eabs : Qabs (c # 2) = c # 2).
  { unfold Qabs. now rewrite Z.abs_eq by lia. }
  rewrite Eabs.
  assert (Elog : exact_floor_log2 (c # 2) = Z.log2 c - 1).
  { unfold exact_floor_log2.
    assert (E1 : Qle_bool 1 (c # 2) = true).
    { apply Qle_bool_iff. unfold Qle. cbn. lia. }
    rewrite E1. change (Qfloor (c # 2)) with (c / 2). now apply log2_half. }
  rewrite Elog.
  replace (Z.max (Z.log2 c - 1 - 52) (-1074)) with (Z.log2 c - 53) by lia.
  unfold Qpow2.
  assert (Eneg : (Z.log2 c - 53 <? 0) = true) by (apply Z.ltb_lt; lia).
  rewrite Eneg.
  replace (- (Z.log2 c - 53)) with (Z.succ (52 - Z.log2 c)) by lia.
  rewrite Z.pow_succ_r by lia.
  set (p := 2 ^ (52 - Z.log2 c)).
  assert (Hp : 0 < p) by (apply Z.pow_pos_nonneg; lia).
  assert (Hstep : ~ (inject_Z (2 * p) == 0)%Q).
  { unfold Qeq. cbn. lia. }
  assert (Hquot : ((c # 2) / / inject_Z (2 * p) == inject_Z (c * p))%Q).
  { unfold Qdiv. rewrite Qinv_involutive.
    unfold Qeq, Qmult, inject_Z. cbn. lia. }
  rewrite (round_half_even_integer _ _ Hquot).
  assert (Eneg0 : Qlt_bool (c # 2) 0 = false).
  { apply Qlt_bool_false_iff. unfold Qle. cbn. lia. }
  rewrite Eneg0.
  rewrite <- Hquot. field. exact Hstep.
Qed.

Lemma py_int_floor (x : Q) : (0 <= x)%Q -> py_int x = Qfloor x.
Proof.
  destruct x as [n d]. unfold Qle. cbn. intros Hn.
  unfold py_int. cbn. apply Z.quot_div_nonneg; lia.
Qed.

(** X22: on a chunk size [c] of at least one event and below [2 ** 53],
    where [c / 2] is exact in doubles, [_sample_chunksize] returns [c]
    when the draw takes the first choice, and otherwise half of it,
    rounded down, but not less than one; so what it returns is between
    1 and [c]. *)
Theorem sample_chunksize_range (picks_first : bool) (chunksize : Z) :
  1 <= chunksize < 2 ^ 53 ->
  _sample_chunksize true chunksize = Ok chunksize /\
  _sample_chunksize false chunksize = Ok (Z.max (chunksize / 2) 1) /\
  exists sampled : Z,
    _sample_chunksize picks_first chunksize = Ok sampled /\ 1 <= sampled <= chunksize.
Proof.
  intros [Hlo Hhi].
  assert (Hcases : chunksize = 1 \/ 2 <= chunksize) by lia.
  assert (Hboth : _sample_chunksize true chunksize = Ok chunksize /\
                  _sample_chunksize false chunksize = Ok (Z.max (chunksize / 2) 1)).
  { destruct Hcases as [->|Hc]; [split; vm_compute; reflexivity|].
    unfold _sample_chunksize, int_truediv.
    change (2 =? 0) with false. cbv iota.
    assert (Hq : (inject_Z chunksize / inject_Z 2)%Q = chunksize # 2).
    { unfold Qdiv, Qmult, Qinv, inject_Z. cbn. now rewrite Z.mul_1_r. }
    rewrite Hq.
    pose proof (round_to_double_half chunksize (conj Hc Hhi)) as Hhalf.
    assert (Hhalf_lo : (1 <= round_to_double (chunksize # 2))%Q).
    { rewrite Hhalf. unfold Qle. cbn. lia. }
    assert (Eover : double_overflows (round_to_double (chunksize # 2)) = false).
    { unfold double_overflows.
      destruct (Qle_bool (Qpow2 1024) (Qabs (round_to_double (chunksize # 2)))) eqn:E;
        [|reflexivity].
      apply Qle_bool_iff in E. rewrite Hhalf in E.
      rewrite Qabs_pos in E by (unfold Qle; cbn; lia).
      exfalso.
      assert (Hbig : (chunksize # 2 < Qpow2 1024)%Q).
      { apply Qlt_trans with (inject_Z (2 ^ 53)).
        - unfold Qlt. cbn. lia.
        - vm_compute. reflexivity. }
      exact (Qlt_not_le _ _ Hbig E). }
    rewrite Eover. split.
    - now rewrite py_int_inject_Z.
    - f_equal. unfold py_max.
      assert (E1 : Qlt_bool (round_to_double (chunksize # 2)) 1 = false)
        by now apply Qlt_bool_false_iff.
      rewrite E1, py_int_floor by lra.
      rewrite Hhalf. change (Qfloor (chunksize # 2)) with (chunksize / 2).
      assert (1 <= chunksize / 2) by (apply Z.div_le_lower_bound; lia). lia. }
  destruct Hboth as [Hfirst Hsecond].
  split; [exact Hfirst|]. split; [exact Hsecond|].
  destruct picks_first.
  - exists chunksize. split; [exact Hfirst|lia].
  - exists (Z.max (chunksize / 2) 1). split; [exact Hsecond|].
    assert (chunksize / 2 <= chunksize) by (apply Z.div_le_upper_bound; lia). lia.
Qed.

Lemma sample_chunksize_range_witness :
  _sample_chunksize true 1025 = Ok 1025 /\
  _sample_chunksize false 1025 = Ok (Z.max (1025 / 2) 1) /\
  exists sampled : Z,
    _sample_chunksize false 1025 = Ok sampled /\ 1 <= sampled <= 1025.
Proof. apply (sample_chunksize_range false 1025). lia. Defined.

(** ** _update_chunksize *)

Section ControllerProperties.

Variable quantile : list Q -> Q -> Q.
Variable linregress : list Q -> list Q -> linregress_result.
Variable floor_log2 : Q -> Z.

Lemma update_chunksize_run (q : CoffeaWQ) :
  _update_chunksize quantile linregress floor_log2 q =
  if dict_truthy (dynamic_chunksize (executor q)) then
    match _compute_chunksize quantile linregress floor_log2 (chunksize (executor q))
                             (dynamic_chunksize (executor q)) (task_reports q) with
    | Ok c =>
        (Ok c,
         set_stats_coffea (set_current_chunksize q (Some c))
                          (StatsOps.set (stats_coffea q) "current_chunksize" c))
    | Raise e => (Raise e, q)
    | Diverged => (Diverged, q)
    end
  else
    match current_chunksize q with
    | Some c => (Ok c, q)
    | None => (Raise (no_attribute "current_chunksize"), q)
    end.
Proof.
  unfold _update_chunksize, bind, gets, getattr, lift, modify. cbv beta.
  destruct (dict_truthy (dynamic_chunksize (executor q))); [|reflexivity].
  destruct (_compute_chunksize _ _ _ _ _ _) as [c| |]; reflexivity.
Qed.

(** X23: [_update_chunksize] returns the chunk size that the queue holds
    after the call. With dynamic chunk sizes this is a power of two or
    the configured chunk size, it is recorded under
    ["current_chunksize"], and nothing else of the queue changes. Without
    them the queue is as it was, and the call raises [AttributeError]
    when no chunk size was set before. When the call raises, the queue
    is as it was. The power of two rests on a logarithm that is not
    negative from 1 on. *)
Theorem update_chunksize_power_of_two (q q' : CoffeaWQ) (out : outcome Z) :
  (forall x : Q, (1 <= x)%Q -> 0 <= floor_log2 x) ->
  _update_chunksize quantile linregress floor_log2 q = (out, q') ->
  (forall c, out = Ok c ->
     current_chunksize q' = Some c /\
     if dict_truthy (dynamic_chunksize (executor q)) then
       ((exists k : Z, 0 <= k /\ c = 2 ^ k) \/ c = chunksize (executor q)) /\
       stats_coffea q' = <["current_chunksize" := c]> (stats_coffea q) /\
       q' = set_stats_coffea (set_current_chunksize q (Some c)) (stats_coffea q')
     else q' = q) /\
  (forall e, out = Raise e -> q' = q) /\
  (dict_truthy (dynamic_chunksize (executor q)) = false ->
   current_chunksize q = None ->
   out = Raise (no_attribute "current_chunksize")).
Proof.
  intros Hlog. rewrite update_chunksize_run.
  destruct (dict_truthy (dynamic_chunksize (executor q))).
  - destruct (_compute_chunksize _ _ _ _ _ _) as [c0| |] eqn:Hc;
      intros H; injection H as <- <-;
      (split; [|split; [intros e'; try discriminate; reflexivity|discriminate]]);
      intros c Hout; try discriminate.
    injection Hout as <-.
    split; [reflexivity|]. split; [|split; reflexivity].
    destruct (compute_chunksize_returns _ _ _ _ _ _ _ Hc) as [[v ->]| ->]; [left|now right].
    apply rounded_chunksize_power_of_two. exact Hlog.
  - destruct (current_chunksize q) as [c0|] eqn:Hcur;
      intros H; injection H as <- <-.
    + split; [|split; [discriminate|discriminate]].
      intros c Hout. injection Hout as <-. split; [exact Hcur|reflexivity].
    + split; [discriminate|]. split; reflexivity.
Qed.

(** X24: one report is not enough to change the estimate. On a queue with
    dynamic chunk sizes and no report yet, once the report of the first
    task is added, [_update_chunksize] sets the chunk size to
    [int(_floor_to_pow2(chunksize))] for the configured [chunksize],
    whatever the task and its measurements were. *)
Theorem first_report_keeps_base_chunksize
    (task : CoffeaWQTask) (cmd_execution_time : Z) (memory_measured : Q)
    (q q1 : CoffeaWQ) :
  task_reports q = [] ->
  dict_truthy (dynamic_chunksize (executor q)) = true ->
  _add_task_report task cmd_execution_time memory_measured q = (Ok tt, q1) ->
  exists q',
    _update_chunksize quantile linregress floor_log2 q1
      = (Ok (rounded_chunksize floor_log2 (inject_Z (chunksize (executor q)))), q') /\
    current_chunksize q'
      = Some (rounded_chunksize floor_log2 (inject_Z (chunksize (executor q)))) /\
    length (task_reports q') = 1%nat.
Proof.
  intros Hnone Hdyn Hadd.
  unfold _add_task_report, bind, lift, modify in Hadd.
  destruct (int_float_truediv cmd_execution_time (1000000 # 1)) as [seconds| |];
    try discriminate.
  injection Hadd as <-.
  rewrite update_chunksize_run. cbn [executor set_task_reports task_reports].
  rewrite Hdyn, Hnone. cbn [app].
  rewrite compute_chunksize_base by (right; cbn; lia).
  eexists. split; [reflexivity|]. split; reflexivity.
Qed.

End ControllerProperties.

Lemma update_chunksize_power_of_two_witness :
  (forall c, Ok 512 = Ok c ->
     current_chunksize
       (snd (_update_chunksize quantile_nearest linregress_least_squares floor_log2_double
                               dynamic_queue)) = Some c /\
     if dict_truthy (dynamic_chunksize (executor dynamic_queue)) then
       ((exists k : Z, 0 <= k /\ c = 2 ^ k) \/ c = chunksize (executor dynamic_queue)) /\
       stats_coffea
         (snd (_update_chunksize quantile_nearest linregress_least_squares floor_log2_double
                                 dynamic_queue))
         = <["current_chunksize" := c]> (stats_coffea dynamic_queue) /\
       snd (_update_chunksize quantile_nearest linregress_least_squares floor_log2_double
                              dynamic_queue)
         = set_stats_coffea (set_current_chunksize dynamic_queue (Some c))
             (stats_coffea
                (snd (_update_chunksize quantile_nearest linregress_least_squares
                                        floor_log2_double dynamic_queue)))
     else snd (_update_chunksize quantile_nearest linregress_least_squares floor_log2_double
                                 dynamic_queue)
          = dynamic_queue) /\
  (forall e, Ok 512 = Raise e ->
     snd (_update_chunksize quantile_nearest linregress_least_squares floor_log2_double
                            dynamic_queue)
       = dynamic_queue) /\
  (dict_truthy (dynamic_chunksize (executor dynamic_queue)) = false ->
   current_chunksize dynamic_queue = None ->
   Ok 512 = Raise (no_attribute "current_chunksize")).
Proof.
  apply (update_chunksize_power_of_two
           quantile_nearest linregress_least_squares floor_log2_double
           dynamic_queue
           (snd (_update_chunksize quantile_nearest linregress_least_squares
                                   floor_log2_double dynamic_queue))
           (Ok 512)).
  - exact floor_log2_double_nonneg.
  - vm_compute. reflexivity.
Defined.

Lemma first_report_keeps_base_chunksize_witness :
  exists q',
    _update_chunksize quantile_nearest linregress_least_squares floor_log2_double
      (snd (_add_task_report task_A 25000000 (300 # 1) (set_task_reports dynamic_queue [])))
      = (Ok (rounded_chunksize floor_log2_double
               (inject_Z (chunksize (executor (set_task_reports dynamic_queue []))))),
         q') /\
    current_chunksize q'
      = Some (rounded_chunksize floor_log2_double
                (inject_Z (chunksize (executor (set_task_reports dynamic_queue []))))) /\
    length (task_reports q') = 1%nat.
Proof.
  apply (first_report_keeps_base_chunksize
           quantile_nearest linregress_least_squares floor_log2_double
           task_A 25000000 (300 # 1) (set_task_reports dynamic_queue [])
           (snd (_add_task_report task_A 25000000 (300 # 1)
                                  (set_task_reports dynamic_queue [])))).
  - reflexivity.
  - vm_compute. reflexivity.
  - vm_compute. reflexivity.
Defined.

(** ** What split and the scheduler do before they raise *)

(** X11: on an item of two events or more, once the three divisions of
    [ProcCoffeaWQTask.split] returned, the split is counted under
    ["chunks_split"], the size of the children is recorded under
    ["min_chunksize_after_split"], and [CoffeaWQTask.tasks_counter] is
    advanced by one; then the constructor of the first child raises
    [TypeError], and no child is returned. *)
Theorem split_counts_before_raising (a : TaskAttrs) (item : WorkItem) (q : CoffeaWQ)
    (current target n actual : Z) :
  2 <= WorkItem_len item ->
  current_chunksize q = Some current ->
  (if WorkItem_len item <=? current then ceil_div (WorkItem_len item) 2 else Ok current)
    = Ok target ->
  ceil_div (WorkItem_len item) target = Ok n ->
  ceil_div (WorkItem_len item) (Z.max n 1) = Ok actual ->
  split (ProcCoffeaWQTask a item) q
    = (Raise staging_dir_is_a_method,
       counted
         (set_stats_coffea q
            (StatsOps.min (StatsOps.inc (stats_coffea q) "chunks_split" 1)
                          "min_chunksize_after_split" actual))).
Proof. apply split_raises_in_first_child. Qed.

Lemma split_counts_before_raising_witness :
  split (ProcCoffeaWQTask (attrs_of example_task) example_item) chunksize_4_queue
    = (Raise staging_dir_is_a_method,
       counted
         (set_stats_coffea chunksize_4_queue
            (StatsOps.min (StatsOps.inc (stats_coffea chunksize_4_queue) "chunks_split" 1)
                          "min_chunksize_after_split" 4))).
Proof.
  apply (split_counts_before_raising (attrs_of example_task) example_item chunksize_4_queue
                                     4 4 2 4).
  - vm_compute. discriminate.
  - reflexivity.
  - vm_compute. reflexivity.
  - vm_compute. reflexivity.
  - vm_compute. reflexivity.
Defined.

(** The loop over the groups leaves the first group pending when it is
    not accumulated, and raises in the constructor of the accumulation
    task when it is. *)
Lemma accum_loop_first_group (fn : string) (chunks : Z) (force : bool)
    (groups : list (list CoffeaWQTask)) (q : CoffeaWQ) :
  accum_loop fn chunks force groups q =
  match groups with
  | [] => (Ok tt, q)
  | next_to_accum :: _ =>
      if not_enough chunks force next_to_accum
      then (Ok tt, set_tasks_to_accumulate q next_to_accum)
      else (Raise staging_dir_is_a_method, counted q)
  end.
Proof.
  destruct groups as [|g rest]; [reflexivity|]. cbn [accum_loop].
  destruct (not_enough chunks force g); [reflexivity|].
  apply bind_raise. apply new_AccumCoffeaWQTask_raises.
Qed.

(** X16: [_submit_accum_tasks] submits nothing, whatever the queue: it
    returns without an accumulation task, or it raises
    [AttributeError] (no [coffea_stats]), [ValueError]
    ([chunks_per_accum] is zero) or the [TypeError] of the constructor
    of the first accumulation task. *)
Theorem submit_accum_tasks_submits_nothing (infile_accum_fn : string) (q : CoffeaWQ) :
  exists (out : outcome unit) (q' : CoffeaWQ),
    _submit_accum_tasks infile_accum_fn q = (out, q') /\
    submitted q' = submitted q /\
    (out = Ok tt \/
     out = Raise (no_attribute "coffea_stats") \/
     out = Raise (ValueError "range() arg 3 must not be zero") \/
     out = Raise staging_dir_is_a_method).
Proof.
  unfold _submit_accum_tasks.
  unfold bind at 1. unfold gets at 1.
  unfold bind at 1. unfold getattr at 1.
  destruct (coffea_stats q) as [stats|] eqn:Hstats.
  2:{ do 2 eexists. split; [reflexivity|]. split; [reflexivity|]. auto. }
  unfold bind at 1. unfold gets at 1.
  unfold bind at 1. unfold on_coffea_stats at 1.
  unfold bind at 1. unfold getattr at 1. rewrite Hstats.
  destruct (force_flag stats (early_terminate q)) as [force stats'].
  unfold bind at 1. unfold modify at 1. unfold ret at 1.
  unfold bind at 1. unfold gets at 1.
  cbn [tasks_to_accumulate set_coffea_stats].
  destruct ((Z.of_nat (length (tasks_to_accumulate q))
             <? 2 * chunks_per_accum (executor q) - 1) && negb force).
  { do 2 eexists. split; [reflexivity|]. split; [reflexivity|]. auto. }
  unfold bind at 1. unfold modify at 1.
  destruct (_group_lst _ (chunks_per_accum (executor q))) as [groups|e|] eqn:Hgroups.
  - rewrite accum_loop_first_group.
    destruct groups as [|g rest].
    + do 2 eexists. split; [reflexivity|]. split; [reflexivity|]. auto.
    + destruct (not_enough _ force g);
        do 2 eexists; (split; [reflexivity|]); (split; [reflexivity|]); auto.
  - unfold _group_lst in Hgroups.
    destruct (chunks_per_accum (executor q) =? 0).
    + injection Hgroups as <-.
      do 2 eexists. split; [reflexivity|]. split; [reflexivity|]. auto.
    + destruct (chunks_per_accum (executor q) <? 0); discriminate.
  - unfold _group_lst in Hgroups.
    destruct (chunks_per_accum (executor q) =? 0); [discriminate|].
    destruct (chunks_per_accum (executor q) <? 0); discriminate.
Qed.

(** On the four pending results, with [coffea_stats] put on the queue
    from outside: the results are sorted, and the constructor of the
    first accumulation task raises; nothing is submitted and the four
    results stay pending. *)
Lemma submit_accum_tasks_patched_queue :
  exists q' : CoffeaWQ,
    _submit_accum_tasks "accum.p" four_pending_patched
      = (Raise staging_dir_is_a_method, q') /\
    submitted q' = [] /\
    tasks_to_accumulate q' = [task_A; task_B; task_C; task_D] /\
    tasks_counter q' = 5.
Proof.
  eexists. split; [vm_compute; reflexivity|]. repeat split.
Qed.
